(** * Hourly energy balance and capacity sizing of a regional grid

    A shallow embedding of the Python sources [optimization.py] (capacity
    search objective) and [ANALYSIS BASED.py] (stand-alone dispatch analysis),
    with theorems about the time-series normaliser, the generation model, the
    hourly storage/backup state machine and the budget model.

    Conventions of the embedding.
    - Python floats and ints are modelled by exact rationals [Q]; comparisons
      are the boolean tests of the source ([>], [>=], [<]).
    - numpy arrays and Python lists are [list Q]; a value that may be either a
      number or an array (the components returned by the generation model) is
      a [pyval].
    - Code that can raise (indexing out of range, [np.pad] on an empty array,
      a shape mismatch in array arithmetic, [len] of a number) returns
      [option]; [None] stands for the raised exception.
    - A [for h in range(n)] loop is [for_each body (seq 0 n)], threading the
      loop-carried variables as an explicit state. *)

From Stdlib Require Import QArith Qround Lqa Lia.
From stdpp Require Import base list option.

Local Open Scope Q_scope.

(** ** Python numeric primitives *)

Module Py.

(** [x > y] *)
Definition gt (x y : Q) : bool :=
  match x ?= y with Gt => true | _ => false end.

(** [x < y] *)
Definition lt (x y : Q) : bool := gt y x.

(** [x >= y] *)
Definition ge (x y : Q) : bool := Qle_bool y x.

(** Built-in [min(a, b)]: the first argument unless the second is strictly
    smaller. *)
Definition min (a b : Q) : Q := if lt b a then b else a.

(** Built-in [max(a, b)]: the first argument unless the second is strictly
    larger. *)
Definition max (a b : Q) : Q := if gt b a then b else a.

(** Float floor division [a // b]. *)
Definition floordiv (a b : Q) : Q := inject_Z (Qfloor (a / b)).

End Py.

(** Values held by a Python variable of the generation model: a plain number
    or a one-dimensional numpy array. *)
Inductive pyval : Type :=
  | PyNum (x : Q)
  | NdArray (a : list Q).

(** [len(v)]; a number has no length (TypeError). *)
Definition py_len (v : pyval) : option nat :=
  match v with
  | PyNum _ => None
  | NdArray a => Some (length a)
  end.

(** [v[h]]; a number cannot be indexed, an array raises IndexError out of
    range. *)
Definition py_index (v : pyval) (h : nat) : option Q :=
  match v with
  | PyNum _ => None
  | NdArray a => a !! h
  end.

Module Np.

(** Element-wise binary operation on two arrays with numpy's broadcasting
    rule for one dimension: equal lengths, or one operand of length 1. *)
Definition broadcast (op : Q -> Q -> Q) (a b : list Q) : option (list Q) :=
  if (length a =? length b)%nat then Some (zip_with op a b)
  else match a, b with
       | [x], _ => Some (map (op x) b)
       | _, [y] => Some (map (fun x => op x y) a)
       | _, _ => None
       end.

Definition binop (op : Q -> Q -> Q) (u v : pyval) : option pyval :=
  match u, v with
  | PyNum x, PyNum y => Some (PyNum (op x y))
  | PyNum x, NdArray b => Some (NdArray (map (op x) b))
  | NdArray a, PyNum y => Some (NdArray (map (fun x => op x y) a))
  | NdArray a, NdArray b => NdArray <$> broadcast op a b
  end.

Definition add := binop Qplus.
Definition mul := binop Qmult.
Definition div := binop Qdiv.

(** [np.full(n, x)] and [np.zeros(n)]. *)
Definition full (n : nat) (x : Q) : list Q := replicate n x.
Definition zeros (n : nat) : list Q := replicate n 0.

(** [np.pad(data, (0, after), 'edge')]: repeat the last sample [after]
    times; an empty array cannot be extended in this mode (ValueError). *)
Definition pad_edge (data : list Q) (after : nat) : option (list Q) :=
  match list.last data with
  | Some x => Some (data ++ replicate after x)
  | None => None
  end.

End Np.

(** A [for h in hours] loop whose body may raise. *)
Fixpoint for_each {S : Type} (body : nat -> S -> option S)
    (hours : list nat) (st : S) : option S :=
  match hours with
  | [] => Some st
  | h :: rest =>
      match body h st with
      | Some st' => for_each body rest st'
      | None => None
      end
  end.

(** ** Time-series normaliser (both files) *)

Definition HOURS_PER_YEAR : nat := Z.to_nat 8760.

Definition ensure_8760 (data : list Q) : option (list Q) :=
  if (HOURS_PER_YEAR <? length data)%nat then Some (take HOURS_PER_YEAR data)
  else if (length data <? HOURS_PER_YEAR)%nat
       then Np.pad_edge data (HOURS_PER_YEAR - length data)
       else Some data.

(** ** optimization.py: generation model, budget model, objective *)

Module Optimization.

(** Module-level constants. *)
Definition total_population : Q := 2938200.
Definition investment_per_capita : Q := 3000.
Definition total_investment : Q := total_population * investment_per_capita.

Definition cost_wind : Q := 6.5e6.
Definition cost_panels : Q := 600.
Definition cost_smr : Q := 250e6.
Definition cost_storage_kwh : Q := 100.

Definition area : Q := 3832.2.
Definition hydro_power_per_km2 : Q := 20.
Definition storage_efficiency : Q := 0.85.
Definition storage_dispatch_time : Q := 6.
Definition initial_storage_fraction : Q := 0.5.
Definition hydro_capacity : Q := area * hydro_power_per_km2.

(** The module-level series, after normalisation. *)
Record series : Type := Series {
  irradiation : list Q;
  wind_speed : list Q;
  wind_power : list Q;
  hourly_demand : list Q
}.

(** Lines 32-35: the four raw columns are normalised when the module is
    loaded; loading fails if one of them is empty. *)
Definition load (raw_irradiation raw_demand raw_wind_speed raw_wind_power : list Q)
    : option series :=
  irr ← ensure_8760 raw_irradiation;
  ws ← ensure_8760 raw_wind_speed;
  wp ← ensure_8760 raw_wind_power;
  dem ← ensure_8760 raw_demand;
  Some (Series irr ws wp dem).

(** The returned 4-tuple (wind, solar, nuclear, hydro). Wind, solar and
    hydro are arrays; [nuclear_production] is the number [NSMR * 50 * 1000]. *)
Definition calc_energy_production (env : series) (Nmills Npanels NSMR : Q)
    : pyval * pyval * pyval * pyval :=
  let wind_production := map (fun w => Nmills * w) (wind_power env) in
  let solar_irradiance := map (fun i => i / 1000) (irradiation env) in
  let solar_production :=
    map (fun s => Npanels * s * 0.55 * 2.8 * 0.197) solar_irradiance in
  let nuclear_production := NSMR * 50 * 1000 in
  let hydro_production := Np.full HOURS_PER_YEAR hydro_capacity in
  (NdArray wind_production, NdArray solar_production,
   PyNum nuclear_production, NdArray hydro_production).

(** Line 73: the value the simulation uses as storage capacity. *)
Definition storage_kwh (Nmills Npanels NSMR : Q) : Q :=
  total_investment - (Nmills * cost_wind + Npanels * cost_panels + NSMR * cost_smr).

(** Loop-carried variables of [calc_all]. *)
Record state : Type := State {
  storage : Q;
  gas_consumption : Q;
  storage_values : list Q
}.

(** Lines 83-94: one iteration of the hourly loop. *)
Definition hour (capacity : Q) (total_production hourly_demand : list Q)
    (h : nat) (st : state) : option state :=
  p ← total_production !! h;
  d ← hourly_demand !! h;
  let surplus := p - d in
  let st' :=
    if Py.gt surplus 0 then
      State (Py.min (storage st + surplus * storage_efficiency) capacity)
            (gas_consumption st) (storage_values st)
    else
      let deficit := - surplus in
      if Py.ge (storage st) deficit then
        State (storage st - deficit) (gas_consumption st) (storage_values st)
      else
        State 0 (gas_consumption st + (deficit - storage st)) (storage_values st)
  in
  Some (State (storage st') (gas_consumption st')
              (storage_values st' ++ [storage st'])).

Definition calc_all (env : series) (Nmills Npanels NSMR : Q)
    : option (Q * list Q * list Q) :=
  let storage_kwh := storage_kwh Nmills Npanels NSMR in
  if Py.gt storage_kwh 0 then
    let storage0 := storage_kwh * initial_storage_fraction in
    let '(wind, solar, nuclear, hydro) :=
      calc_energy_production env Nmills Npanels NSMR in
    ws ← Np.add wind solar;
    wsn ← Np.add ws nuclear;
    total_production ← Np.add wsn hydro;
    match total_production with
    | NdArray total_production =>
        st ← for_each (hour storage_kwh total_production (hourly_demand env))
                      (seq 0 HOURS_PER_YEAR) (State storage0 0 []);
        Some (gas_consumption st, storage_values st, total_production)
    | PyNum _ => None
    end
  else Some (1e30, [], []).

Definition optimization_function (env : series) (params : Q * Q * Q) : option Q :=
  let '(Nmills, Npanels, NSMR) := params in
  r ← calc_all env Nmills Npanels NSMR;
  Some (r.1.1).

(** Lines 106-110: search bounds, one [(low, high)] pair per variable. *)
Definition bounds : list (Q * Q) :=
  [ (0, Py.floordiv total_investment cost_wind);
    (0, Py.floordiv total_investment cost_panels);
    (0, Py.floordiv total_investment cost_smr) ].

(** A point of the search space lies inside [bounds]. *)
Definition in_bounds (params : Q * Q * Q) : Prop :=
  let '(Nmills, Npanels, NSMR) := params in
  Forall2 (fun x b => b.1 <= x /\ x <= b.2) [Nmills; Npanels; NSMR] bounds.

End Optimization.

(** ** ANALYSIS BASED.py: dispatch analysis of the installed infrastructure *)

Module Analysis.

Definition total_population : Q := 2938200.
Definition investment_per_capita : Q := 3000.
Definition total_investment : Q := total_population * investment_per_capita.

Definition cost_wind : Q := 6.5e6.
Definition cost_panels : Q := 600.
Definition cost_smr : Q := 250e6.
Definition cost_storage_kwh : Q := 100.

Definition wind_turbines : Q := 625.
Definition solar_panels : Q := 4759059.
Definition nuclear_smrs : Q := 5.

Definition nuclear_production : list Q := Np.full HOURS_PER_YEAR 244382.352845001.
Definition hydro_capacity : list Q := Np.full HOURS_PER_YEAR 76644.0.

(** Returns (total, wind, solar, nuclear, hydro); array products and sums
    raise on a shape mismatch. *)
Definition calculate_energy_production (wind_power irradiation : list Q)
    : option (list Q * list Q * list Q * list Q * list Q) :=
  wind_energy ← Np.broadcast Qmult (Np.full HOURS_PER_YEAR wind_turbines)
                             (take HOURS_PER_YEAR wind_power);
  solar0 ← Np.broadcast Qmult (Np.full HOURS_PER_YEAR solar_panels)
                        (take HOURS_PER_YEAR irradiation);
  let solar_energy := map (fun s => s * 0.55 * 2.8 * 0.197) solar0 in
  let nuclear_energy := nuclear_production in
  let hydro_energy := hydro_capacity in
  ws ← Np.broadcast Qplus wind_energy solar_energy;
  wsn ← Np.broadcast Qplus ws nuclear_energy;
  total_production ← Np.broadcast Qplus wsn hydro_energy;
  Some (total_production, wind_energy, solar_energy, nuclear_energy, hydro_energy).

(** Line 61. *)
Definition storage_capacity : Q :=
  (total_investment
   - (wind_turbines * cost_wind + solar_panels * cost_panels + nuclear_smrs * cost_smr))
  / cost_storage_kwh.

(** Loop-carried variables of [simulate_energy_balance]. *)
Record state : Type := State {
  storage : Q;
  gas_consumption : list Q;
  storage_values : list Q
}.

(** [a[h] = v] on an array: IndexError out of range. *)
Definition setitem (a : list Q) (h : nat) (v : Q) : option (list Q) :=
  if (h <? length a)%nat then Some (<[h := v]> a) else None.

(** Lines 67-78: one iteration of the hourly loop. *)
Definition hour (storage_capacity : Q) (total_production hourly_demand : list Q)
    (h : nat) (st : state) : option state :=
  p ← total_production !! h;
  d ← hourly_demand !! h;
  let surplus := p - d in
  st' ←
    (if Py.gt surplus 0 then
       Some (State (Py.min (storage st + surplus * 0.85) storage_capacity)
                   (gas_consumption st) (storage_values st))
     else
       let deficit := - surplus in
       if Py.ge (storage st) deficit then
         Some (State (storage st - deficit) (gas_consumption st) (storage_values st))
       else
         let remaining_deficit := deficit - storage st in
         gas ← setitem (gas_consumption st) h (Py.max 0 remaining_deficit);
         Some (State 0 gas (storage_values st)));
  Some (State (storage st') (gas_consumption st')
              (storage_values st' ++ [storage st'])).

(** Lines 62-80, for a given storage capacity. *)
Definition simulate_with_capacity (storage_capacity : Q)
    (total_production hourly_demand : list Q) : option (list Q * list Q) :=
  let storage0 := storage_capacity * 0.5 in
  let gas0 := Np.zeros HOURS_PER_YEAR in
  st ← for_each (hour storage_capacity total_production hourly_demand)
                (seq 0 HOURS_PER_YEAR) (State storage0 gas0 []);
  Some (gas_consumption st, storage_values st).

Definition simulate_energy_balance (total_production hourly_demand : list Q)
    : option (list Q * list Q) :=
  simulate_with_capacity storage_capacity total_production hourly_demand.

(** The seven series handed to [plot_results]. *)
Record plot_args : Type := PlotArgs {
  plot_wind : list Q;
  plot_solar : list Q;
  plot_nuclear : list Q;
  plot_hydro : list Q;
  plot_gas : list Q;
  plot_storage : list Q;
  plot_demand : list Q
}.

(** Lines 113-123: [main], from the three columns returned by [load_data] to
    the arguments of the call to [plot_results] (reading files and drawing
    are outside the model). *)
Definition main (loaded : list Q * list Q * list Q) : option plot_args :=
  let '(wind_power, irradiation, hourly_demand) := loaded in
  wind_power ← ensure_8760 wind_power;
  irradiation ← ensure_8760 irradiation;
  hourly_demand ← ensure_8760 hourly_demand;
  '(total_production, wind_energy, solar_energy, nuclear_energy, hydro_energy)
    ← calculate_energy_production wind_power irradiation;
  '(gas_consumption, storage_values)
    ← simulate_energy_balance total_production hourly_demand;
  Some (PlotArgs wind_energy solar_energy nuclear_energy hydro_energy
                 gas_consumption storage_values hourly_demand).

End Analysis.

(** ** Specification-level vocabulary *)

(** The hourly transition as the design document words it: from storage level
    [s], with [net = production - demand], the pair (new storage level, backup
    used this hour). *)
Definition spec_transition (capacity s production demand : Q) : Q * Q :=
  let net := production - demand in
  if Py.gt net 0 then (Py.min (s + net * 0.85) capacity, 0)
  else
    let d := - net in
    if Py.ge s d then (s - d, 0) else (0, d - s).

(** The storage level an hour starts from: the initial level at hour 0, the
    level recorded for the previous hour afterwards. *)
Definition level_before (init : Q) (levels : list Q) (h : nat) : Q :=
  match h with
  | O => init
  | S h' => match levels !! h' with Some v => v | None => init end
  end.

(** Sum of a series. *)
Definition Qsum (l : list Q) : Q := foldr Qplus 0 l.

(** Total production of one hour for a mix, from that hour's per-turbine
    output [w] and irradiance [i]: wind, solar, nuclear and hydro added in the
    order [calc_all] adds them. *)
Definition hourly_production (Nmills Npanels NSMR w i : Q) : Q :=
  Nmills * w + Npanels * (i / 1000) * 0.55 * 2.8 * 0.197
  + NSMR * 50 * 1000 + Optimization.hydro_capacity.

(** The loop variables of [calc_all] after the first [n] iterations of its
    hourly loop, started as lines 76-80 start it; the whole loop is
    [n = 8760]. *)
Definition calc_all_loop (capacity : Q) (total_production hourly_demand : list Q)
    (n : nat) : option Optimization.state :=
  for_each (Optimization.hour capacity total_production hourly_demand) (seq 0 n)
    (Optimization.State (capacity * Optimization.initial_storage_fraction) 0 []).

(** ** Basic facts: comparisons, sums, loops *)

Lemma gt_true (x y : Q) : Py.gt x y = true <-> y < x.
Proof.
  unfold Py.gt. rewrite (Qgt_alt x y).
  destruct (x ?= y); split; intros; congruence.
Qed.

Lemma gt_false (x y : Q) : Py.gt x y = false <-> x <= y.
Proof.
  unfold Py.gt. rewrite (Qle_alt x y).
  destruct (x ?= y); split; intros; congruence.
Qed.

Lemma ge_true (x y : Q) : Py.ge x y = true <-> y <= x.
Proof. unfold Py.ge. apply Qle_bool_iff. Qed.

Lemma ge_false (x y : Q) : Py.ge x y = false <-> x < y.
Proof.
  unfold Py.ge. split; intros H.
  - apply Qnot_le_lt. intros Hle. apply Qle_bool_iff in Hle. congruence.
  - destruct (Qle_bool y x) eqn:E; [|reflexivity].
    apply Qle_bool_iff in E. lra.
Qed.

Lemma min_bounds (a b lo : Q) : lo <= a -> lo <= b -> lo <= Py.min a b /\ Py.min a b <= b.
Proof.
  intros Ha Hb. unfold Py.min, Py.lt.
  destruct (Py.gt a b) eqn:E.
  - split; [assumption | lra].
  - apply gt_false in E. split; assumption.
Qed.

Lemma max_zero_pos (r : Q) : 0 < r -> Py.max 0 r = r.
Proof. intros H. unfold Py.max. apply gt_true in H. now rewrite H. Qed.

Lemma Qsum_app (l k : list Q) : Qsum (l ++ k) == Qsum l + Qsum k.
Proof.
  induction l as [|x l IH].
  - change (Qsum k == 0 + Qsum k). lra.
  - change (x + Qsum (l ++ k) == x + Qsum l + Qsum k). rewrite IH. lra.
Qed.

Lemma Qsum_snoc (l : list Q) (x : Q) : Qsum (l ++ [x]) == Qsum l + x.
Proof. rewrite Qsum_app. change (Qsum [x]) with (x + 0). lra. Qed.

Lemma Qsum_nonneg (l : list Q) :
  (forall i x, l !! i = Some x -> 0 <= x) -> 0 <= Qsum l.
Proof.
  induction l as [|y l IH]; intros H.
  - unfold Qsum. simpl. lra.
  - change (0 <= y + Qsum l).
    assert (0 <= y) by (apply (H O); reflexivity).
    assert (0 <= Qsum l) by (apply IH; intros i x Hx; apply (H (S i)); exact Hx).
    lra.
Qed.

Lemma Qsum_ge_elem (l : list Q) (i : nat) (x : Q) :
  (forall j y, l !! j = Some y -> 0 <= y) -> l !! i = Some x -> x <= Qsum l.
Proof.
  revert i. induction l as [|y l IH]; intros i H Hi; [discriminate|].
  change (x <= y + Qsum l).
  assert (Hl : forall j z, l !! j = Some z -> 0 <= z)
    by (intros j z Hz; apply (H (S j)); exact Hz).
  destruct i as [|i].
  - injection Hi as ->. pose proof (Qsum_nonneg l Hl). lra.
  - assert (0 <= y) by (apply (H O); reflexivity).
    pose proof (IH i Hl Hi). lra.
Qed.

Lemma Qsum_le_pointwise (l k : list Q) :
  length l = length k ->
  (forall i x y, l !! i = Some x -> k !! i = Some y -> x <= y) ->
  Qsum l <= Qsum k.
Proof.
  revert k. induction l as [|x l IH]; intros [|y k] Hlen H; simpl in Hlen; try lia.
  - apply Qle_refl.
  - change (x + Qsum l <= y + Qsum k).
    assert (x <= y) by (apply (H O); reflexivity).
    assert (Qsum l <= Qsum k).
    { apply IH; [simpl in Hlen; lia|]. intros i a b Ha Hb. apply (H (S i)); assumption. }
    lra.
Qed.

Lemma Qsum_replicate (n : nat) (x : Q) : Qsum (replicate n x) == inject_Z (Z.of_nat n) * x.
Proof.
  induction n as [|n IH].
  - change (0 == 0 * x). lra.
  - change (x + Qsum (replicate n x) == inject_Z (Z.of_nat (S n)) * x).
    rewrite IH, Nat2Z.inj_succ. unfold Z.succ. rewrite inject_Z_plus.
    change (inject_Z 1) with 1. lra.
Qed.

(** Loop rule: an invariant indexed by the hour about to be processed. *)
Lemma for_each_seq_inv {S : Type} (body : nat -> S -> option S)
    (I : nat -> S -> Prop) (n : nat) :
  forall (start : nat) (st : S),
    I start st ->
    (forall k s, (start <= k < start + n)%nat -> I k s ->
       exists s', body k s = Some s' /\ I (Datatypes.S k) s') ->
    exists st', for_each body (seq start n) st = Some st' /\ I (start + n)%nat st'.
Proof.
  induction n as [|n IH]; intros start st H0 Hstep.
  - exists st. simpl. rewrite Nat.add_0_r. auto.
  - destruct (Hstep start st ltac:(lia) H0) as (s1 & Hb & H1).
    destruct (IH (Datatypes.S start) s1 H1) as (st' & Hrun & Hend).
    { intros k s Hk. apply Hstep. lia. }
    exists st'. simpl. rewrite Hb. split; [exact Hrun|].
    replace (start + Datatypes.S n)%nat with (Datatypes.S start + n)%nat by lia.
    exact Hend.
Qed.

(** A loop that raises at some hour raises as a whole. *)
Lemma for_each_seq_fails {S : Type} (body : nat -> S -> option S) (n : nat) :
  forall (start : nat) (st : S) (k : nat),
    (start <= k < start + n)%nat ->
    (forall s, body k s = None) ->
    for_each body (seq start n) st = None.
Proof.
  induction n as [|n IH]; intros start st k Hk Hnone; [lia|].
  simpl. destruct (body start st) as [s1|] eqn:E; [|reflexivity].
  destruct (decide (k = start)) as [->|Hne].
  - rewrite Hnone in E. discriminate.
  - apply (IH _ _ k); [lia | exact Hnone].
Qed.

Lemma level_before_snoc (init : Q) (levels : list Q) (x : Q) (h : nat) :
  (h <= length levels)%nat ->
  level_before init (levels ++ [x]) h = level_before init levels h.
Proof.
  destruct h as [|h]; [reflexivity|]. intros Hh. simpl.
  rewrite lookup_app_l by lia. reflexivity.
Qed.

Lemma level_before_end (init : Q) (levels : list Q) (x : Q) :
  level_before init (levels ++ [x]) (S (length levels)) = x.
Proof.
  simpl. rewrite lookup_app_r by lia. rewrite Nat.sub_diag. reflexivity.
Qed.

(** ** The normaliser *)

Lemma ensure_8760_long (data : list Q) :
  (HOURS_PER_YEAR < length data)%nat -> ensure_8760 data = Some (take HOURS_PER_YEAR data).
Proof.
  intros H. unfold ensure_8760.
  destruct (Nat.ltb_spec HOURS_PER_YEAR (length data)); [reflexivity | lia].
Qed.

Lemma ensure_8760_exact (data : list Q) :
  length data = HOURS_PER_YEAR -> ensure_8760 data = Some data.
Proof.
  intros H. unfold ensure_8760.
  destruct (Nat.ltb_spec HOURS_PER_YEAR (length data)); [lia|].
  destruct (Nat.ltb_spec (length data) HOURS_PER_YEAR); [lia | reflexivity].
Qed.

Lemma ensure_8760_short (data : list Q) :
  (length data < HOURS_PER_YEAR)%nat ->
  ensure_8760 data = Np.pad_edge data (HOURS_PER_YEAR - length data).
Proof.
  intros H. unfold ensure_8760.
  destruct (Nat.ltb_spec HOURS_PER_YEAR (length data)); [lia|].
  destruct (Nat.ltb_spec (length data) HOURS_PER_YEAR); [reflexivity | lia].
Qed.

Lemma ensure_8760_length (data out : list Q) :
  ensure_8760 data = Some out -> length out = HOURS_PER_YEAR.
Proof.
  intros E.
  destruct (Nat.lt_trichotomy (length data) HOURS_PER_YEAR) as [Hlt | [Heq | Hgt]].
  - rewrite ensure_8760_short in E by exact Hlt. unfold Np.pad_edge in E.
    destruct (list.last data) as [x|]; [|discriminate].
    injection E as <-. rewrite length_app, length_replicate. lia.
  - rewrite ensure_8760_exact in E by exact Heq. injection E as <-. exact Heq.
  - rewrite ensure_8760_long in E by exact Hgt. injection E as <-.
    rewrite length_take. lia.
Qed.

Lemma ensure_8760_nonempty (data : list Q) :
  (1 <= length data)%nat -> exists out, ensure_8760 data = Some out.
Proof.
  intros H1.
  destruct (Nat.lt_trichotomy (length data) HOURS_PER_YEAR) as [Hlt | [Heq | Hgt]].
  - rewrite ensure_8760_short by exact Hlt. unfold Np.pad_edge.
    destruct (list.last data) as [x|] eqn:E; [eauto|].
    apply last_None in E. subst data. simpl in H1. lia.
  - rewrite ensure_8760_exact by exact Heq. eauto.
  - rewrite ensure_8760_long by exact Hgt. eauto.
Qed.

(** C7. For every input series with at least one sample the normaliser
    returns a series of exactly 8760 samples: the first 8760 samples of a
    longer input, the input itself when it already has 8760 samples, and the
    input followed by copies of its last sample when it is shorter. *)
Theorem ensure_8760_shape (data : list Q) :
  (1 <= length data)%nat ->
  exists out,
    ensure_8760 data = Some out /\
    length out = HOURS_PER_YEAR /\
    ((HOURS_PER_YEAR < length data)%nat -> out = take HOURS_PER_YEAR data) /\
    (length data = HOURS_PER_YEAR -> out = data) /\
    ((length data < HOURS_PER_YEAR)%nat ->
       exists x, list.last data = Some x /\
                 out = data ++ replicate (HOURS_PER_YEAR - length data) x).
Proof.
  intros H1. destruct (ensure_8760_nonempty data H1) as [out E].
  exists out. split; [exact E|]. split; [exact (ensure_8760_length _ _ E)|].
  repeat split.
  - intros Hgt. rewrite ensure_8760_long in E by exact Hgt. congruence.
  - intros Heq. rewrite ensure_8760_exact in E by exact Heq. congruence.
  - intros Hlt. rewrite ensure_8760_short in E by exact Hlt. unfold Np.pad_edge in E.
    destruct (list.last data) as [x|]; [|discriminate].
    exists x. split; [reflexivity | congruence].
Qed.

Lemma ensure_8760_shape_witness :
  exists out,
    ensure_8760 [3; 1; 2] = Some out /\
    length out = HOURS_PER_YEAR /\
    ((HOURS_PER_YEAR < length [3; 1; 2])%nat -> out = take HOURS_PER_YEAR [3; 1; 2]) /\
    (length [3; 1; 2] = HOURS_PER_YEAR -> out = [3; 1; 2]) /\
    ((length [3; 1; 2] < HOURS_PER_YEAR)%nat ->
       exists x, list.last [3; 1; 2] = Some x /\
                 out = [3; 1; 2] ++ replicate (HOURS_PER_YEAR - length [3; 1; 2]) x).
Proof. apply (ensure_8760_shape [3; 1; 2]). simpl. lia. Defined.

(** C8. Normalising twice is the same as normalising once: for every
    non-empty series the normaliser succeeds, and applied to its own result it
    returns that result unchanged. *)
Theorem ensure_8760_idempotent (s : list Q) :
  (1 <= length s)%nat ->
  exists out, ensure_8760 s = Some out /\ ensure_8760 out = Some out.
Proof.
  intros H1. destruct (ensure_8760_nonempty s H1) as [out E].
  exists out. split; [exact E|].
  apply ensure_8760_exact. exact (ensure_8760_length _ _ E).
Qed.

Lemma ensure_8760_idempotent_witness :
  exists out, ensure_8760 [3; 1; 2] = Some out /\ ensure_8760 out = Some out.
Proof. apply (ensure_8760_idempotent [3; 1; 2]). simpl. lia. Defined.

Ltac conj_split := repeat match goal with |- _ /\ _ => split end.

(** ** The transition function *)

Lemma spec_transition_backup_nonneg (cap s p d : Q) :
  0 <= (spec_transition cap s p d).2.
Proof.
  unfold spec_transition.
  destruct (Py.gt (p - d) 0); simpl; [lra|].
  destruct (Py.ge s (- (p - d))) eqn:E; simpl; [lra|].
  apply ge_false in E. lra.
Qed.

Lemma spec_transition_level_bounds (cap s p d : Q) :
  0 < cap -> 0 <= s <= cap ->
  0 <= (spec_transition cap s p d).1 <= cap.
Proof.
  intros Hcap [Hs0 Hs1]. unfold spec_transition.
  destruct (Py.gt (p - d) 0) eqn:G; simpl.
  - apply gt_true in G. apply min_bounds; lra.
  - apply gt_false in G.
    destruct (Py.ge s (- (p - d))) eqn:E; simpl.
    + apply ge_true in E. lra.
    + lra.
Qed.

Lemma spec_transition_backup_level (cap s p d : Q) :
  0 < (spec_transition cap s p d).2 -> (spec_transition cap s p d).1 = 0.
Proof.
  unfold spec_transition.
  destruct (Py.gt (p - d) 0); simpl; [lra|].
  destruct (Py.ge s (- (p - d))); simpl; [lra | reflexivity].
Qed.

(** With a non-negative starting level, an hour's backup never exceeds the
    shortfall of production against demand. *)
Lemma spec_transition_backup_le (cap s p d : Q) :
  0 <= s -> 0 <= p -> (spec_transition cap s p d).2 <= Py.max 0 d.
Proof.
  intros Hs Hp.
  assert (Hmax : 0 <= Py.max 0 d /\ d <= Py.max 0 d).
  { unfold Py.max. destruct (Py.gt d 0) eqn:G.
    - apply gt_true in G. lra.
    - apply gt_false in G. lra. }
  unfold spec_transition.
  destruct (Py.gt (p - d) 0); simpl; [lra|].
  destruct (Py.ge s (- (p - d))); simpl; lra.
Qed.

(** ** ANALYSIS BASED.py: the hourly loop *)

(** One iteration, in terms of the transition function. *)
Lemma analysis_hour_spec (cap : Q) (tp hd : list Q) (h : nat)
    (st : Analysis.state) (p d : Q) :
  tp !! h = Some p -> hd !! h = Some d ->
  (h < length (Analysis.gas_consumption st))%nat ->
  Analysis.gas_consumption st !! h = Some 0 ->
  Analysis.hour cap tp hd h st =
    Some (Analysis.State
            (spec_transition cap (Analysis.storage st) p d).1
            (<[h := (spec_transition cap (Analysis.storage st) p d).2]>
               (Analysis.gas_consumption st))
            (Analysis.storage_values st
               ++ [(spec_transition cap (Analysis.storage st) p d).1])).
Proof.
  intros Hp Hd Hlen Hz. unfold Analysis.hour, spec_transition.
  rewrite Hp, Hd. simpl.
  destruct (Py.gt (p - d) 0); simpl.
  - rewrite list_insert_id by exact Hz. reflexivity.
  - destruct (Py.ge (Analysis.storage st) (- (p - d))) eqn:E; simpl.
    + rewrite list_insert_id by exact Hz. reflexivity.
    + unfold Analysis.setitem.
      destruct (Nat.ltb_spec h (length (Analysis.gas_consumption st))); [|lia].
      simpl. apply ge_false in E. rewrite max_zero_pos by lra. reflexivity.
Qed.

(** The whole run: it terminates normally on series that cover the year, and
    every recorded hour is the transition applied to the level the hour
    started from. *)
Lemma analysis_trace (cap : Q) (tp hd : list Q) :
  (HOURS_PER_YEAR <= length tp)%nat -> (HOURS_PER_YEAR <= length hd)%nat ->
  exists gas sv,
    Analysis.simulate_with_capacity cap tp hd = Some (gas, sv) /\
    length gas = HOURS_PER_YEAR /\ length sv = HOURS_PER_YEAR /\
    forall h, (h < HOURS_PER_YEAR)%nat ->
      exists p d,
        tp !! h = Some p /\ hd !! h = Some d /\
        sv !! h = Some (spec_transition cap (level_before (cap * 0.5) sv h) p d).1 /\
        gas !! h = Some (spec_transition cap (level_before (cap * 0.5) sv h) p d).2.
Proof.
  intros Htp Hhd. unfold Analysis.simulate_with_capacity.
  destruct (for_each_seq_inv (Analysis.hour cap tp hd)
    (fun k st =>
       length (Analysis.storage_values st) = k /\
       length (Analysis.gas_consumption st) = HOURS_PER_YEAR /\
       Analysis.storage st = level_before (cap * 0.5) (Analysis.storage_values st) k /\
       (forall h, (h < k)%nat ->
          exists p d,
            tp !! h = Some p /\ hd !! h = Some d /\
            Analysis.storage_values st !! h =
              Some (spec_transition cap
                      (level_before (cap * 0.5) (Analysis.storage_values st) h) p d).1 /\
            Analysis.gas_consumption st !! h =
              Some (spec_transition cap
                      (level_before (cap * 0.5) (Analysis.storage_values st) h) p d).2) /\
       (forall h, (k <= h < HOURS_PER_YEAR)%nat ->
          Analysis.gas_consumption st !! h = Some 0))
    HOURS_PER_YEAR 0%nat
    (Analysis.State (cap * 0.5) (Np.zeros HOURS_PER_YEAR) []))
    as (st' & Hrun & Hlen & Hgas & _ & Htrace & _).
  - cbn [Analysis.storage_values Analysis.gas_consumption Analysis.storage].
    conj_split.
    + reflexivity.
    + unfold Np.zeros. apply length_replicate.
    + reflexivity.
    + intros h Hh. lia.
    + intros h Hh. unfold Np.zeros. apply lookup_replicate_2. lia.
  - intros k [s g sv] Hk (Hlen & Hgas & Hs & Htrace & Hzero).
    cbn [Analysis.storage_values Analysis.gas_consumption Analysis.storage] in *.
    destruct (lookup_lt_is_Some_2 tp k ltac:(lia)) as [p Hp].
    destruct (lookup_lt_is_Some_2 hd k ltac:(lia)) as [d Hd].
    eexists. split.
    { apply (analysis_hour_spec cap tp hd k _ p d Hp Hd);
        cbn [Analysis.gas_consumption]; [lia | apply Hzero; lia]. }
    cbn [Analysis.storage_values Analysis.gas_consumption Analysis.storage].
    conj_split.
    + rewrite length_app. simpl. lia.
    + rewrite length_insert. exact Hgas.
    + subst k. rewrite level_before_end. reflexivity.
    + intros h Hh. destruct (decide (h = k)) as [->|Hne].
      * exists p, d. rewrite level_before_snoc by lia. rewrite <- Hs.
        conj_split; try assumption.
        -- rewrite lookup_app_r by lia. rewrite Hlen, Nat.sub_diag. reflexivity.
        -- apply list_lookup_insert_eq. lia.
      * destruct (Htrace h ltac:(lia)) as (p' & d' & Hp' & Hd' & Hsv & Hg).
        exists p', d'. rewrite level_before_snoc by lia.
        conj_split; try assumption.
        -- rewrite lookup_app_l by lia. exact Hsv.
        -- rewrite list_lookup_insert_ne by lia. exact Hg.
    + intros h Hh. rewrite list_lookup_insert_ne by lia. apply Hzero. lia.
  - rewrite Hrun. simpl. exists (Analysis.gas_consumption st'), (Analysis.storage_values st').
    conj_split; [reflexivity | exact Hgas | exact Hlen | exact Htrace].
Qed.

(** ** optimization.py: the hourly loop *)

(** One iteration, in terms of the transition function: the storage level
    follows the transition and the running total grows by the hour's backup. *)
Lemma optimization_hour_spec (cap : Q) (tp hd : list Q) (h : nat)
    (st : Optimization.state) (p d : Q) :
  tp !! h = Some p -> hd !! h = Some d ->
  exists g,
    Optimization.hour cap tp hd h st =
      Some (Optimization.State
              (spec_transition cap (Optimization.storage st) p d).1 g
              (Optimization.storage_values st
                 ++ [(spec_transition cap (Optimization.storage st) p d).1])) /\
    g == Optimization.gas_consumption st
         + (spec_transition cap (Optimization.storage st) p d).2.
Proof.
  intros Hp Hd. unfold Optimization.hour, spec_transition, Optimization.storage_efficiency.
  rewrite Hp, Hd. simpl.
  destruct (Py.gt (p - d) 0); simpl.
  - eexists. split; [reflexivity | lra].
  - destruct (Py.ge (Optimization.storage st) (- (p - d))); simpl.
    + eexists. split; [reflexivity | lra].
    + eexists. split; [reflexivity | lra].
Qed.

Lemma optimization_trace (cap : Q) (tp hd : list Q) :
  (HOURS_PER_YEAR <= length tp)%nat -> (HOURS_PER_YEAR <= length hd)%nat ->
  exists st backups,
    for_each (Optimization.hour cap tp hd) (seq 0 HOURS_PER_YEAR)
             (Optimization.State (cap * 0.5) 0 []) = Some st /\
    length (Optimization.storage_values st) = HOURS_PER_YEAR /\
    length backups = HOURS_PER_YEAR /\
    Optimization.gas_consumption st == Qsum backups /\
    forall h, (h < HOURS_PER_YEAR)%nat ->
      exists p d,
        tp !! h = Some p /\ hd !! h = Some d /\
        Optimization.storage_values st !! h =
          Some (spec_transition cap
                  (level_before (cap * 0.5) (Optimization.storage_values st) h) p d).1 /\
        backups !! h =
          Some (spec_transition cap
                  (level_before (cap * 0.5) (Optimization.storage_values st) h) p d).2.
Proof.
  intros Htp Hhd.
  destruct (for_each_seq_inv (Optimization.hour cap tp hd)
    (fun k st =>
       length (Optimization.storage_values st) = k /\
       Optimization.storage st
         = level_before (cap * 0.5) (Optimization.storage_values st) k /\
       exists backups,
         length backups = k /\
         Optimization.gas_consumption st == Qsum backups /\
         forall h, (h < k)%nat ->
           exists p d,
             tp !! h = Some p /\ hd !! h = Some d /\
             Optimization.storage_values st !! h =
               Some (spec_transition cap
                       (level_before (cap * 0.5) (Optimization.storage_values st) h)
                       p d).1 /\
             backups !! h =
               Some (spec_transition cap
                       (level_before (cap * 0.5) (Optimization.storage_values st) h)
                       p d).2)
    HOURS_PER_YEAR 0%nat (Optimization.State (cap * 0.5) 0 []))
    as (st' & Hrun & Hlen & _ & bs & Hbs & Hsum & Htrace).
  - cbn [Optimization.storage_values Optimization.gas_consumption Optimization.storage].
    conj_split; [reflexivity | reflexivity |].
    exists []. conj_split; [reflexivity | reflexivity |]. intros h Hh. lia.
  - intros k [s g sv] Hk (Hlen & Hs & bs & Hbs & Hsum & Htrace).
    cbn [Optimization.storage_values Optimization.gas_consumption Optimization.storage] in *.
    destruct (lookup_lt_is_Some_2 tp k ltac:(lia)) as [p Hp].
    destruct (lookup_lt_is_Some_2 hd k ltac:(lia)) as [d Hd].
    destruct (optimization_hour_spec cap tp hd k (Optimization.State s g sv) p d Hp Hd)
      as (g' & Hstep & Hg').
    cbn [Optimization.storage_values Optimization.gas_consumption Optimization.storage] in *.
    eexists. split; [exact Hstep|].
    cbn [Optimization.storage_values Optimization.gas_consumption Optimization.storage].
    conj_split.
    + rewrite length_app. simpl. lia.
    + subst k. rewrite level_before_end. reflexivity.
    + exists (bs ++ [(spec_transition cap s p d).2]). conj_split.
      * rewrite length_app. simpl. lia.
      * rewrite Qsum_snoc, Hg', Hsum. reflexivity.
      * intros h Hh. destruct (decide (h = k)) as [->|Hne].
        -- exists p, d. rewrite level_before_snoc by lia. rewrite <- Hs.
           conj_split; try assumption.
           ++ rewrite lookup_app_r by lia. rewrite Hlen, Nat.sub_diag. reflexivity.
           ++ rewrite lookup_app_r by lia. rewrite Hbs, Nat.sub_diag. reflexivity.
        -- destruct (Htrace h ltac:(lia)) as (p' & d' & Hp' & Hd' & Hsv & Hb).
           exists p', d'. rewrite level_before_snoc by lia.
           conj_split; try assumption.
           ++ rewrite lookup_app_l by lia. exact Hsv.
           ++ rewrite lookup_app_l by lia. exact Hb.
  - exists st', bs. conj_split; assumption.
Qed.

(** Levels along a trace that follows the transition stay inside the store. *)
Lemma trace_levels_bounded (cap : Q) (tp hd sv : list Q) (n : nat) :
  0 < cap ->
  (forall h, (h < n)%nat ->
     exists p d, tp !! h = Some p /\ hd !! h = Some d /\
       sv !! h = Some (spec_transition cap (level_before (cap * 0.5) sv h) p d).1) ->
  forall h, (h < n)%nat ->
    exists v, sv !! h = Some v /\ 0 <= v <= cap.
Proof.
  intros Hcap Htrace h. induction h as [|h IH]; intros Hh.
  - destruct (Htrace O Hh) as (p & d & _ & _ & Hsv).
    eexists. split; [exact Hsv|]. apply spec_transition_level_bounds; [exact Hcap|].
    simpl. lra.
  - destruct (IH ltac:(lia)) as (v & Hv & Hb).
    destruct (Htrace (S h) Hh) as (p & d & _ & _ & Hsv).
    eexists. split; [exact Hsv|]. apply spec_transition_level_bounds; [exact Hcap|].
    simpl. rewrite Hv. exact Hb.
Qed.

Lemma level_before_bounded (cap : Q) (sv : list Q) (n h : nat) :
  0 < cap ->
  (forall i, (i < n)%nat -> exists v, sv !! i = Some v /\ 0 <= v <= cap) ->
  (h <= n)%nat ->
  0 <= level_before (cap * 0.5) sv h <= cap.
Proof.
  intros Hcap Hb Hh. destruct h as [|h]; simpl; [lra|].
  destruct (Hb h ltac:(lia)) as (v & -> & Hv). exact Hv.
Qed.

(** ** optimization.py: loading, production, [calc_all] *)

Lemma map_lookup {A B : Type} (f : A -> B) (l : list A) (i : nat) :
  map f l !! i = f <$> (l !! i).
Proof.
  revert i. induction l as [|x l IH]; intros [|i]; simpl; try reflexivity. apply IH.
Qed.

Lemma broadcast_same_length (op : Q -> Q -> Q) (a b : list Q) :
  length a = length b -> Np.broadcast op a b = Some (zip_with op a b).
Proof.
  intros H. unfold Np.broadcast.
  destruct (Nat.eqb_spec (length a) (length b)); [reflexivity | contradiction].
Qed.

Lemma load_lengths (ri rd rs rp : list Q) (env : Optimization.series) :
  Optimization.load ri rd rs rp = Some env ->
  length (Optimization.irradiation env) = HOURS_PER_YEAR /\
  length (Optimization.wind_speed env) = HOURS_PER_YEAR /\
  length (Optimization.wind_power env) = HOURS_PER_YEAR /\
  length (Optimization.hourly_demand env) = HOURS_PER_YEAR.
Proof.
  unfold Optimization.load. intros E.
  destruct (ensure_8760 ri) as [a|] eqn:Ea; [|discriminate].
  destruct (ensure_8760 rs) as [b|] eqn:Eb; [|discriminate].
  destruct (ensure_8760 rp) as [c|] eqn:Ec; [|discriminate].
  destruct (ensure_8760 rd) as [d|] eqn:Ed; [|discriminate].
  simpl in E. injection E as <-. simpl.
  conj_split; eapply ensure_8760_length; eassumption.
Qed.

(** The summed production array of [calc_all]. *)
Lemma total_production_array (env : Optimization.series) (Nmills Npanels NSMR : Q) :
  length (Optimization.wind_power env) = HOURS_PER_YEAR ->
  length (Optimization.irradiation env) = HOURS_PER_YEAR ->
  exists tp,
    (forall (X : Type) (K : pyval -> option X),
       (let '(wind, solar, nuclear, hydro) :=
          Optimization.calc_energy_production env Nmills Npanels NSMR in
        ws ← Np.add wind solar; wsn ← Np.add ws nuclear;
        total_production ← Np.add wsn hydro; K total_production)
       = K (NdArray tp)) /\
    length tp = HOURS_PER_YEAR /\
    forall h w i,
      Optimization.wind_power env !! h = Some w ->
      Optimization.irradiation env !! h = Some i ->
      tp !! h = Some (hourly_production Nmills Npanels NSMR w i).
Proof.
  intros Hw Hi. unfold Optimization.calc_energy_production, Np.add, Np.binop.
  rewrite broadcast_same_length by (rewrite !length_map; lia).
  cbn [fmap option_fmap option_map mbind option_bind].
  rewrite broadcast_same_length
    by (rewrite length_map, length_zip_with, !length_map;
        unfold Np.full; rewrite length_replicate; lia).
  cbn [fmap option_fmap option_map mbind option_bind].
  eexists. split; [intros X K; reflexivity|]. split.
  - rewrite length_zip_with, length_map, length_zip_with, !length_map.
    unfold Np.full. rewrite length_replicate. lia.
  - intros h w i Hhw Hhi.
    assert (Hh : (h < HOURS_PER_YEAR)%nat)
      by (rewrite <- Hw; apply lookup_lt_is_Some; eauto).
    rewrite lookup_zip_with, map_lookup, lookup_zip_with, !map_lookup, Hhw, Hhi.
    unfold Np.full. rewrite lookup_replicate_2 by exact Hh.
    reflexivity.
Qed.

(** A mix that leaves no money for storage is answered with the sentinel
    triple, whatever the series are. *)
Lemma calc_all_infeasible (env : Optimization.series) (Nmills Npanels NSMR : Q) :
  Optimization.storage_kwh Nmills Npanels NSMR <= 0 ->
  Optimization.calc_all env Nmills Npanels NSMR = Some (1e30, [], []).
Proof.
  intros H. unfold Optimization.calc_all.
  apply gt_false in H. rewrite H. reflexivity.
Qed.

(** A mix that leaves money for storage runs the whole year, on series that
    cover the year. *)
Lemma calc_all_feasible (env : Optimization.series) (Nmills Npanels NSMR : Q) :
  length (Optimization.wind_power env) = HOURS_PER_YEAR ->
  length (Optimization.irradiation env) = HOURS_PER_YEAR ->
  (HOURS_PER_YEAR <= length (Optimization.hourly_demand env))%nat ->
  0 < Optimization.storage_kwh Nmills Npanels NSMR ->
  exists gas sv tp backups,
    Optimization.calc_all env Nmills Npanels NSMR = Some (gas, sv, tp) /\
    length sv = HOURS_PER_YEAR /\
    length tp = HOURS_PER_YEAR /\
    length backups = HOURS_PER_YEAR /\
    gas == Qsum backups /\
    (forall h w i,
       Optimization.wind_power env !! h = Some w ->
       Optimization.irradiation env !! h = Some i ->
       tp !! h = Some (hourly_production Nmills Npanels NSMR w i)) /\
    forall h, (h < HOURS_PER_YEAR)%nat ->
      exists p d,
        tp !! h = Some p /\ Optimization.hourly_demand env !! h = Some d /\
        sv !! h =
          Some (spec_transition (Optimization.storage_kwh Nmills Npanels NSMR)
                  (level_before (Optimization.storage_kwh Nmills Npanels NSMR * 0.5) sv h)
                  p d).1 /\
        backups !! h =
          Some (spec_transition (Optimization.storage_kwh Nmills Npanels NSMR)
                  (level_before (Optimization.storage_kwh Nmills Npanels NSMR * 0.5) sv h)
                  p d).2.
Proof.
  intros Hw Hi Hd Hpos.
  destruct (total_production_array env Nmills Npanels NSMR Hw Hi)
    as (tp & Hsum & Htp & Hlookup).
  destruct (optimization_trace (Optimization.storage_kwh Nmills Npanels NSMR) tp
              (Optimization.hourly_demand env) ltac:(lia) Hd)
    as (st & bs & Hrun & Hsv & Hbs & Hgas & Htrace).
  exists (Optimization.gas_consumption st), (Optimization.storage_values st), tp, bs.
  conj_split; try assumption.
  unfold Optimization.calc_all.
  apply gt_true in Hpos. rewrite Hpos.
  cbv zeta. rewrite Hsum.
  change (Optimization.storage_kwh Nmills Npanels NSMR
          * Optimization.initial_storage_fraction)
    with (Optimization.storage_kwh Nmills Npanels NSMR * 0.5).
  rewrite Hrun. reflexivity.
Qed.

(** ** optimization.py: the loop, iteration by iteration *)

Lemma for_each_app {S : Type} (body : nat -> S -> option S) (l1 l2 : list nat) (st : S) :
  for_each body (l1 ++ l2) st =
    match for_each body l1 st with
    | Some st' => for_each body l2 st'
    | None => None
    end.
Proof.
  revert st. induction l1 as [|h l1 IH]; intros st; [reflexivity|].
  simpl. destruct (body h st) as [s1|]; [apply IH | reflexivity].
Qed.

Lemma calc_all_loop_S (cap : Q) (tp hd : list Q) (n : nat) :
  calc_all_loop cap tp hd (S n) =
    match calc_all_loop cap tp hd n with
    | Some st => Optimization.hour cap tp hd n st
    | None => None
    end.
Proof.
  unfold calc_all_loop. rewrite seq_S, for_each_app. cbn [Nat.add].
  destruct (for_each _ (seq 0 n) _) as [st|]; [|reflexivity].
  cbn [for_each]. destruct (Optimization.hour cap tp hd n st); reflexivity.
Qed.

(** One iteration, with the running total exactly as the code updates it:
    unchanged when the hour needs no backup, increased by the hour's backup
    otherwise. *)
Lemma optimization_hour_exact (cap : Q) (tp hd : list Q) (h : nat)
    (st : Optimization.state) (p d : Q) :
  tp !! h = Some p -> hd !! h = Some d ->
  Optimization.hour cap tp hd h st =
    Some (Optimization.State
            (spec_transition cap (Optimization.storage st) p d).1
            (if Py.gt (spec_transition cap (Optimization.storage st) p d).2 0
             then Optimization.gas_consumption st
                  + (spec_transition cap (Optimization.storage st) p d).2
             else Optimization.gas_consumption st)
            (Optimization.storage_values st
               ++ [(spec_transition cap (Optimization.storage st) p d).1])).
Proof.
  intros Hp Hd. unfold Optimization.hour, spec_transition, Optimization.storage_efficiency.
  rewrite Hp, Hd. cbn [mbind option_bind].
  destruct (Py.gt (p - d) 0); cbn [fst snd Optimization.storage
    Optimization.gas_consumption Optimization.storage_values].
  - reflexivity.
  - destruct (Py.ge (Optimization.storage st) (- (p - d))) eqn:E;
      cbn [fst snd Optimization.storage Optimization.gas_consumption
           Optimization.storage_values].
    + reflexivity.
    + apply ge_false in E.
      assert (G : Py.gt (- (p - d) - Optimization.storage st) 0 = true)
        by (apply gt_true; lra).
      rewrite G. reflexivity.
Qed.

Lemma calc_all_loop_defined (cap : Q) (tp hd : list Q) (n : nat) :
  (n <= length tp)%nat -> (n <= length hd)%nat ->
  exists st, calc_all_loop cap tp hd n = Some st.
Proof.
  intros Htp Hhd. induction n as [|n IH].
  - eexists. reflexivity.
  - destruct (IH ltac:(lia) ltac:(lia)) as [st Hst].
    destruct (lookup_lt_is_Some_2 tp n ltac:(lia)) as [p Hp].
    destruct (lookup_lt_is_Some_2 hd n ltac:(lia)) as [d Hd].
    rewrite calc_all_loop_S, Hst, (optimization_hour_exact cap tp hd n st p d Hp Hd).
    eexists. reflexivity.
Qed.

(** Consecutive states of the loop are related by the transition. *)
Lemma calc_all_loop_step (cap : Q) (tp hd : list Q) (h : nat) :
  (h < length tp)%nat -> (h < length hd)%nat ->
  exists st p d,
    calc_all_loop cap tp hd h = Some st /\
    tp !! h = Some p /\ hd !! h = Some d /\
    calc_all_loop cap tp hd (S h) =
      Some (Optimization.State
              (spec_transition cap (Optimization.storage st) p d).1
              (if Py.gt (spec_transition cap (Optimization.storage st) p d).2 0
               then Optimization.gas_consumption st
                    + (spec_transition cap (Optimization.storage st) p d).2
               else Optimization.gas_consumption st)
              (Optimization.storage_values st
                 ++ [(spec_transition cap (Optimization.storage st) p d).1])).
Proof.
  intros Htp Hhd.
  destruct (calc_all_loop_defined cap tp hd h ltac:(lia) ltac:(lia)) as [st Hst].
  destruct (lookup_lt_is_Some_2 tp h Htp) as [p Hp].
  destruct (lookup_lt_is_Some_2 hd h Hhd) as [d Hd].
  exists st, p, d. conj_split; try assumption.
  rewrite calc_all_loop_S, Hst. apply optimization_hour_exact; assumption.
Qed.

(** [calc_all] runs exactly this loop: for a feasible mix its result is read
    off the state the loop reaches after 8760 iterations. *)
Lemma calc_all_runs_loop (env : Optimization.series) (Nmills Npanels NSMR : Q) :
  length (Optimization.wind_power env) = HOURS_PER_YEAR ->
  length (Optimization.irradiation env) = HOURS_PER_YEAR ->
  (HOURS_PER_YEAR <= length (Optimization.hourly_demand env))%nat ->
  0 < Optimization.storage_kwh Nmills Npanels NSMR ->
  exists tp st,
    calc_all_loop (Optimization.storage_kwh Nmills Npanels NSMR) tp
      (Optimization.hourly_demand env) HOURS_PER_YEAR = Some st /\
    Optimization.calc_all env Nmills Npanels NSMR =
      Some (Optimization.gas_consumption st, Optimization.storage_values st, tp).
Proof.
  intros Hw Hi Hd Hpos.
  destruct (total_production_array env Nmills Npanels NSMR Hw Hi)
    as (tp & Hsum & Htp & _).
  destruct (calc_all_loop_defined (Optimization.storage_kwh Nmills Npanels NSMR) tp
              (Optimization.hourly_demand env) HOURS_PER_YEAR ltac:(lia) Hd) as [st Hst].
  exists tp, st. split; [exact Hst|].
  unfold Optimization.calc_all.
  apply gt_true in Hpos. rewrite Hpos. cbv zeta. rewrite Hsum.
  unfold calc_all_loop in Hst. rewrite Hst. reflexivity.
Qed.

(** ** The balance simulator: transition, bounds, backup *)

(** C2. Hours are processed in increasing order and each hour applies the
    transition to the level left by the previous hour (half the capacity at
    hour 0): on a surplus the level becomes min(level + 0.85 x surplus,
    capacity) with no backup; on a deficit the store is drawn down without
    loss, and what it cannot cover is that hour's backup, leaving the level
    at 0. For [simulate_energy_balance] the backup is the hour's entry of the
    gas array; for [calc_all], whose loop keeps a running total, it is what
    iteration [h] adds to the total (nothing when the backup is 0), and the
    level is what the iteration appends to the storage trace. *)
Theorem hourly_transition (cap : Q) (tp hd : list Q) :
  (HOURS_PER_YEAR <= length tp)%nat -> (HOURS_PER_YEAR <= length hd)%nat ->
  (exists gas sv,
     Analysis.simulate_with_capacity cap tp hd = Some (gas, sv) /\
     forall h, (h < HOURS_PER_YEAR)%nat ->
       exists p d,
         tp !! h = Some p /\ hd !! h = Some d /\
         sv !! h = Some (spec_transition cap (level_before (cap * 0.5) sv h) p d).1 /\
         gas !! h = Some (spec_transition cap (level_before (cap * 0.5) sv h) p d).2)
  /\
  (calc_all_loop cap tp hd 0 = Some (Optimization.State (cap * 0.5) 0 []) /\
   (exists st,
      calc_all_loop cap tp hd HOURS_PER_YEAR = Some st /\
      length (Optimization.storage_values st) = HOURS_PER_YEAR) /\
   forall h, (h < HOURS_PER_YEAR)%nat ->
     exists st st' p d,
       calc_all_loop cap tp hd h = Some st /\
       calc_all_loop cap tp hd (S h) = Some st' /\
       tp !! h = Some p /\ hd !! h = Some d /\
       Optimization.storage st' = (spec_transition cap (Optimization.storage st) p d).1 /\
       Optimization.storage_values st'
         = Optimization.storage_values st ++ [Optimization.storage st'] /\
       Optimization.gas_consumption st'
         = if Py.gt (spec_transition cap (Optimization.storage st) p d).2 0
           then Optimization.gas_consumption st
                + (spec_transition cap (Optimization.storage st) p d).2
           else Optimization.gas_consumption st).
Proof.
  intros Htp Hhd. split.
  - destruct (analysis_trace cap tp hd Htp Hhd) as (gas & sv & Hrun & _ & _ & Htrace).
    exists gas, sv. split; assumption.
  - conj_split.
    + reflexivity.
    + destruct (optimization_trace cap tp hd Htp Hhd) as (st & bs & Hrun & Hsv & _).
      exists st. split; [exact Hrun | exact Hsv].
    + intros h Hh.
      destruct (calc_all_loop_step cap tp hd h ltac:(lia) ltac:(lia))
        as (st & p & d & Hst & Hp & Hd & Hnext).
      eexists st, _, p, d. conj_split; [exact Hst | exact Hnext | exact Hp | exact Hd | | |];
        reflexivity.
Qed.

Lemma hourly_transition_witness :
  (exists gas sv,
     Analysis.simulate_with_capacity 1000
       (replicate HOURS_PER_YEAR 500) (replicate HOURS_PER_YEAR 900) = Some (gas, sv) /\
     forall h, (h < HOURS_PER_YEAR)%nat ->
       exists p d,
         replicate HOURS_PER_YEAR 500 !! h = Some p /\
         replicate HOURS_PER_YEAR 900 !! h = Some d /\
         sv !! h = Some (spec_transition 1000 (level_before (1000 * 0.5) sv h) p d).1 /\
         gas !! h = Some (spec_transition 1000 (level_before (1000 * 0.5) sv h) p d).2)
  /\
  (calc_all_loop 1000 (replicate HOURS_PER_YEAR 500) (replicate HOURS_PER_YEAR 900) 0
     = Some (Optimization.State (1000 * 0.5) 0 []) /\
   (exists st,
      calc_all_loop 1000 (replicate HOURS_PER_YEAR 500) (replicate HOURS_PER_YEAR 900)
        HOURS_PER_YEAR = Some st /\
      length (Optimization.storage_values st) = HOURS_PER_YEAR) /\
   forall h, (h < HOURS_PER_YEAR)%nat ->
     exists st st' p d,
       calc_all_loop 1000 (replicate HOURS_PER_YEAR 500) (replicate HOURS_PER_YEAR 900) h
         = Some st /\
       calc_all_loop 1000 (replicate HOURS_PER_YEAR 500) (replicate HOURS_PER_YEAR 900) (S h)
         = Some st' /\
       replicate HOURS_PER_YEAR 500 !! h = Some p /\
       replicate HOURS_PER_YEAR 900 !! h = Some d /\
       Optimization.storage st' = (spec_transition 1000 (Optimization.storage st) p d).1 /\
       Optimization.storage_values st'
         = Optimization.storage_values st ++ [Optimization.storage st'] /\
       Optimization.gas_consumption st'
         = if Py.gt (spec_transition 1000 (Optimization.storage st) p d).2 0
           then Optimization.gas_consumption st
                + (spec_transition 1000 (Optimization.storage st) p d).2
           else Optimization.gas_consumption st).
Proof.
  apply (hourly_transition 1000 (replicate HOURS_PER_YEAR 500) (replicate HOURS_PER_YEAR 900));
    rewrite length_replicate; lia.
Defined.

(** C3. In every run with a positive storage capacity, started at half the
    capacity, the storage level recorded for each of the 8760 hours lies
    between 0 and the capacity. *)
Theorem storage_bound (cap : Q) (tp hd : list Q) :
  0 < cap ->
  (HOURS_PER_YEAR <= length tp)%nat -> (HOURS_PER_YEAR <= length hd)%nat ->
  (exists gas sv,
     Analysis.simulate_with_capacity cap tp hd = Some (gas, sv) /\
     length sv = HOURS_PER_YEAR /\
     forall h, (h < HOURS_PER_YEAR)%nat ->
       exists v, sv !! h = Some v /\ 0 <= v <= cap)
  /\
  (exists st,
     for_each (Optimization.hour cap tp hd) (seq 0 HOURS_PER_YEAR)
       (Optimization.State (cap * Optimization.initial_storage_fraction) 0 []) = Some st /\
     length (Optimization.storage_values st) = HOURS_PER_YEAR /\
     forall h, (h < HOURS_PER_YEAR)%nat ->
       exists v, Optimization.storage_values st !! h = Some v /\ 0 <= v <= cap).
Proof.
  intros Hcap Htp Hhd. split.
  - destruct (analysis_trace cap tp hd Htp Hhd) as (gas & sv & Hrun & _ & Hsv & Htrace).
    exists gas, sv. conj_split; [exact Hrun | exact Hsv |].
    apply (trace_levels_bounded cap tp hd sv HOURS_PER_YEAR Hcap).
    intros h Hh. destruct (Htrace h Hh) as (p & d & Hp & Hd & Hv & _). eauto.
  - destruct (optimization_trace cap tp hd Htp Hhd)
      as (st & bs & Hrun & Hsv & _ & _ & Htrace).
    exists st. conj_split; [exact Hrun | exact Hsv |].
    apply (trace_levels_bounded cap tp hd _ HOURS_PER_YEAR Hcap).
    intros h Hh. destruct (Htrace h Hh) as (p & d & Hp & Hd & Hv & _). eauto.
Qed.

Lemma storage_bound_witness :
  (exists gas sv,
     Analysis.simulate_with_capacity 1000
       (replicate HOURS_PER_YEAR 500) (replicate HOURS_PER_YEAR 900) = Some (gas, sv) /\
     length sv = HOURS_PER_YEAR /\
     forall h, (h < HOURS_PER_YEAR)%nat ->
       exists v, sv !! h = Some v /\ 0 <= v <= 1000)
  /\
  (exists st,
     for_each (Optimization.hour 1000
                 (replicate HOURS_PER_YEAR 500) (replicate HOURS_PER_YEAR 900))
       (seq 0 HOURS_PER_YEAR)
       (Optimization.State (1000 * Optimization.initial_storage_fraction) 0 []) = Some st /\
     length (Optimization.storage_values st) = HOURS_PER_YEAR /\
     forall h, (h < HOURS_PER_YEAR)%nat ->
       exists v, Optimization.storage_values st !! h = Some v /\ 0 <= v <= 1000).
Proof.
  apply (storage_bound 1000 (replicate HOURS_PER_YEAR 500) (replicate HOURS_PER_YEAR 900));
    [reflexivity | rewrite length_replicate; lia | rewrite length_replicate; lia].
Defined.

(** What one iteration of [calc_all]'s loop does to the running total. *)
Lemma billing_cases (cap s p d g : Q) :
  ~ ((if Py.gt (spec_transition cap s p d).2 0
      then g + (spec_transition cap s p d).2 else g) < g) /\
  ((if Py.gt (spec_transition cap s p d).2 0
    then g + (spec_transition cap s p d).2 else g) = g \/
   ((spec_transition cap s p d).1 = 0 /\
    (if Py.gt (spec_transition cap s p d).2 0
     then g + (spec_transition cap s p d).2 else g) = g + (- (p - d) - s) /\
    ~ (- (p - d) - s < 0))).
Proof.
  unfold spec_transition.
  destruct (Py.gt (p - d) 0); cbn [fst snd].
  - change (Py.gt 0 0) with false. cbn iota. split; [lra | left; reflexivity].
  - destruct (Py.ge s (- (p - d))) eqn:E; cbn [fst snd].
    + change (Py.gt 0 0) with false. cbn iota. split; [lra | left; reflexivity].
    + apply ge_false in E.
      assert (G : Py.gt (- (p - d) - s) 0 = true) by (apply gt_true; lra).
      rewrite G. split; [lra|]. right. conj_split; [reflexivity | reflexivity | lra].
Qed.

(** C4. In every run the backup of an hour is never negative and is positive
    only in hours whose recorded storage level is exactly 0. For
    [simulate_energy_balance] this is said of the hour's entry of the gas
    array. For [calc_all] it is said of what iteration [h] does to the running
    total: the total never decreases, and an iteration changes it only when
    it records a level of exactly 0, adding the part of the deficit the store
    could not cover, which is not negative; the annual total is not negative
    either. *)
Theorem backup_nonneg (cap : Q) (tp hd : list Q) :
  (HOURS_PER_YEAR <= length tp)%nat -> (HOURS_PER_YEAR <= length hd)%nat ->
  (exists gas sv,
     Analysis.simulate_with_capacity cap tp hd = Some (gas, sv) /\
     forall h, (h < HOURS_PER_YEAR)%nat ->
       exists b v, gas !! h = Some b /\ sv !! h = Some v /\
                   0 <= b /\ (0 < b -> v = 0))
  /\
  (forall h, (h < HOURS_PER_YEAR)%nat ->
     exists st st' p d,
       calc_all_loop cap tp hd h = Some st /\
       calc_all_loop cap tp hd (S h) = Some st' /\
       tp !! h = Some p /\ hd !! h = Some d /\
       list.last (Optimization.storage_values st') = Some (Optimization.storage st') /\
       ~ (Optimization.gas_consumption st' < Optimization.gas_consumption st) /\
       (Optimization.gas_consumption st' = Optimization.gas_consumption st \/
        (Optimization.storage st' = 0 /\
         Optimization.gas_consumption st'
           = Optimization.gas_consumption st + (- (p - d) - Optimization.storage st) /\
         ~ (- (p - d) - Optimization.storage st < 0))))
  /\
  (exists st,
     calc_all_loop cap tp hd HOURS_PER_YEAR = Some st /\
     ~ (Optimization.gas_consumption st < 0)).
Proof.
  intros Htp Hhd. conj_split.
  - destruct (analysis_trace cap tp hd Htp Hhd) as (gas & sv & Hrun & _ & _ & Htrace).
    exists gas, sv. split; [exact Hrun|].
    intros h Hh. destruct (Htrace h Hh) as (p & d & _ & _ & Hv & Hb).
    eexists _, _. conj_split; [exact Hb | exact Hv | |].
    + apply spec_transition_backup_nonneg.
    + apply spec_transition_backup_level.
  - intros h Hh.
    destruct (calc_all_loop_step cap tp hd h ltac:(lia) ltac:(lia))
      as (st & p & d & Hst & Hp & Hd & Hnext).
    destruct (billing_cases cap (Optimization.storage st) p d
                (Optimization.gas_consumption st)) as [Hmono Hcases].
    eexists st, _, p, d.
    conj_split; [exact Hst | exact Hnext | exact Hp | exact Hd | | exact Hmono | exact Hcases].
    cbn [Optimization.storage_values Optimization.storage]. apply last_snoc.
  - destruct (optimization_trace cap tp hd Htp Hhd)
      as (st & bs & Hrun & _ & Hbs & Hgas & Htrace).
    exists st. split; [exact Hrun|].
    assert (Hnn : 0 <= Qsum bs).
    { apply Qsum_nonneg. intros i x Hx.
      assert (Hi : (i < HOURS_PER_YEAR)%nat)
        by (rewrite <- Hbs; apply lookup_lt_is_Some; eauto).
      destruct (Htrace i Hi) as (p & d & _ & _ & _ & Hb).
      rewrite Hx in Hb. injection Hb as ->. apply spec_transition_backup_nonneg. }
    rewrite Hgas. lra.
Qed.

Lemma backup_nonneg_witness :
  (exists gas sv,
     Analysis.simulate_with_capacity 1000
       (replicate HOURS_PER_YEAR 500) (replicate HOURS_PER_YEAR 900) = Some (gas, sv) /\
     forall h, (h < HOURS_PER_YEAR)%nat ->
       exists b v, gas !! h = Some b /\ sv !! h = Some v /\
                   0 <= b /\ (0 < b -> v = 0))
  /\
  (forall h, (h < HOURS_PER_YEAR)%nat ->
     exists st st' p d,
       calc_all_loop 1000 (replicate HOURS_PER_YEAR 500) (replicate HOURS_PER_YEAR 900) h
         = Some st /\
       calc_all_loop 1000 (replicate HOURS_PER_YEAR 500) (replicate HOURS_PER_YEAR 900) (S h)
         = Some st' /\
       replicate HOURS_PER_YEAR 500 !! h = Some p /\
       replicate HOURS_PER_YEAR 900 !! h = Some d /\
       list.last (Optimization.storage_values st') = Some (Optimization.storage st') /\
       ~ (Optimization.gas_consumption st' < Optimization.gas_consumption st) /\
       (Optimization.gas_consumption st' = Optimization.gas_consumption st \/
        (Optimization.storage st' = 0 /\
         Optimization.gas_consumption st'
           = Optimization.gas_consumption st + (- (p - d) - Optimization.storage st) /\
         ~ (- (p - d) - Optimization.storage st < 0))))
  /\
  (exists st,
     calc_all_loop 1000 (replicate HOURS_PER_YEAR 500) (replicate HOURS_PER_YEAR 900)
       HOURS_PER_YEAR = Some st /\
     ~ (Optimization.gas_consumption st < 0)).
Proof.
  apply (backup_nonneg 1000 (replicate HOURS_PER_YEAR 500) (replicate HOURS_PER_YEAR 900));
    rewrite length_replicate; lia.
Defined.

(** ** Scenario: a flat deficit *)

Lemma scenario_hour0 : spec_transition 1000 (1000 * 0.5) 500 900 = (1000 # 10, 0).
Proof. vm_compute. reflexivity. Qed.

Lemma scenario_hour1 : spec_transition 1000 (1000 # 10) 500 900 = (0, 3000 # 10).
Proof. vm_compute. reflexivity. Qed.

Lemma scenario_later : spec_transition 1000 0 500 900 = (0, 400).
Proof. vm_compute. reflexivity. Qed.

Lemma scenario_analysis :
  exists gas sv,
    Analysis.simulate_with_capacity 1000
      (replicate HOURS_PER_YEAR 500) (replicate HOURS_PER_YEAR 900) = Some (gas, sv) /\
    (exists v b, sv !! 0%nat = Some v /\ gas !! 0%nat = Some b /\ v == 100 /\ b == 0) /\
    (exists v b, sv !! 1%nat = Some v /\ gas !! 1%nat = Some b /\ v == 0 /\ b == 300) /\
    (forall h, (2 <= h < HOURS_PER_YEAR)%nat ->
       exists v b, sv !! h = Some v /\ gas !! h = Some b /\ v == 0 /\ b == 400).
Proof.
  destruct (analysis_trace 1000 (replicate HOURS_PER_YEAR 500) (replicate HOURS_PER_YEAR 900))
    as (gas & sv & Hrun & _ & _ & Htrace);
    [rewrite length_replicate; lia | rewrite length_replicate; lia |].
  assert (Hstep : forall h, (h < HOURS_PER_YEAR)%nat ->
            sv !! h = Some (spec_transition 1000 (level_before (1000 * 0.5) sv h) 500 900).1 /\
            gas !! h = Some (spec_transition 1000 (level_before (1000 * 0.5) sv h) 500 900).2).
  { intros h Hh. destruct (Htrace h Hh) as (p & d & Hp & Hd & Hv & Hb).
    apply lookup_replicate in Hp as [-> _]. apply lookup_replicate in Hd as [-> _].
    split; assumption. }
  assert (H2 : (2 < HOURS_PER_YEAR)%nat) by (unfold HOURS_PER_YEAR; lia).
  destruct (Hstep 0%nat ltac:(lia)) as [Hv0 Hb0].
  cbn [level_before] in Hv0, Hb0. rewrite scenario_hour0 in Hv0, Hb0.
  cbn [fst snd] in Hv0, Hb0.
  destruct (Hstep 1%nat ltac:(lia)) as [Hv1 Hb1].
  cbn [level_before] in Hv1, Hb1. rewrite Hv0 in Hv1, Hb1.
  rewrite scenario_hour1 in Hv1, Hb1. cbn [fst snd] in Hv1, Hb1.
  assert (Hzero : forall h, (1 <= h < HOURS_PER_YEAR)%nat -> sv !! h = Some 0).
  { intros h. induction h as [|h IH]; intros Hh; [lia|].
    destruct (decide (h = 0%nat)) as [->|Hne]; [exact Hv1|].
    destruct (Hstep (S h) ltac:(lia)) as [Hv _].
    cbn [level_before] in Hv. rewrite IH in Hv by lia.
    rewrite scenario_later in Hv. exact Hv. }
  exists gas, sv. conj_split.
  - exact Hrun.
  - eexists _, _. conj_split; [exact Hv0 | exact Hb0 | reflexivity | reflexivity].
  - eexists _, _. conj_split; [exact Hv1 | exact Hb1 | reflexivity | reflexivity].
  - intros h Hh. destruct (Hstep h ltac:(lia)) as [Hv Hb].
    destruct h as [|h]; [lia|].
    cbn [level_before] in Hv, Hb. rewrite (Hzero h) in Hv, Hb by lia.
    rewrite scenario_later in Hv, Hb. cbn [fst snd] in Hv, Hb.
    eexists _, _. conj_split; [exact Hv | exact Hb | reflexivity | reflexivity].
Qed.

(** One iteration of [calc_all]'s loop on the flat series. *)
Lemma scenario_loop_step (h : nat) (st : Optimization.state) :
  (h < HOURS_PER_YEAR)%nat ->
  calc_all_loop 1000 (replicate HOURS_PER_YEAR 500) (replicate HOURS_PER_YEAR 900) h
    = Some st ->
  calc_all_loop 1000 (replicate HOURS_PER_YEAR 500) (replicate HOURS_PER_YEAR 900) (S h)
    = Some (Optimization.State
              (spec_transition 1000 (Optimization.storage st) 500 900).1
              (if Py.gt (spec_transition 1000 (Optimization.storage st) 500 900).2 0
               then Optimization.gas_consumption st
                    + (spec_transition 1000 (Optimization.storage st) 500 900).2
               else Optimization.gas_consumption st)
              (Optimization.storage_values st
                 ++ [(spec_transition 1000 (Optimization.storage st) 500 900).1])).
Proof.
  intros Hh Hst. rewrite calc_all_loop_S, Hst.
  apply optimization_hour_exact; apply lookup_replicate_2; exact Hh.
Qed.

Lemma scenario_loop_after_2 :
  calc_all_loop 1000 (replicate HOURS_PER_YEAR 500) (replicate HOURS_PER_YEAR 900) 1
    = Some (Optimization.State (1000 # 10) 0 [1000 # 10]) /\
  calc_all_loop 1000 (replicate HOURS_PER_YEAR 500) (replicate HOURS_PER_YEAR 900) 2
    = Some (Optimization.State 0 (0 + (3000 # 10)) [1000 # 10; 0]).
Proof.
  assert (H2 : (2 < HOURS_PER_YEAR)%nat) by (unfold HOURS_PER_YEAR; lia).
  assert (L1 : calc_all_loop 1000 (replicate HOURS_PER_YEAR 500)
                 (replicate HOURS_PER_YEAR 900) 1
               = Some (Optimization.State (1000 # 10) 0 [1000 # 10])).
  { rewrite (scenario_loop_step 0 (Optimization.State (1000 * 0.5) 0 []))
      by (lia || reflexivity).
    cbn [Optimization.storage Optimization.gas_consumption Optimization.storage_values].
    rewrite scenario_hour0. reflexivity. }
  split; [exact L1|].
  rewrite (scenario_loop_step 1 _ ltac:(lia) L1).
  cbn [Optimization.storage Optimization.gas_consumption Optimization.storage_values].
  rewrite scenario_hour1. reflexivity.
Qed.

Lemma scenario_loop_later (n : nat) :
  (2 + n <= HOURS_PER_YEAR)%nat ->
  exists g sv,
    calc_all_loop 1000 (replicate HOURS_PER_YEAR 500) (replicate HOURS_PER_YEAR 900) (2 + n)
      = Some (Optimization.State 0 g sv) /\
    g == 300 + 400 * inject_Z (Z.of_nat n) /\
    length sv = (2 + n)%nat.
Proof.
  induction n as [|n IH]; intros Hn.
  - destruct scenario_loop_after_2 as [_ L2].
    eexists _, _. conj_split; [exact L2 | vm_compute; reflexivity | reflexivity].
  - destruct (IH ltac:(lia)) as (g & sv & Hst & Hg & Hsv).
    replace (2 + S n)%nat with (S (2 + n)) by lia.
    rewrite (scenario_loop_step (2 + n) _ ltac:(lia) Hst).
    cbn [Optimization.storage Optimization.gas_consumption Optimization.storage_values].
    rewrite scenario_later. cbn [fst snd]. change (Py.gt 400 0) with true. cbn iota.
    eexists _, _. conj_split; [reflexivity | |].
    + rewrite Hg, Nat2Z.inj_succ. unfold Z.succ. rewrite inject_Z_plus.
      change (inject_Z 1) with 1. lra.
    + rewrite length_app, Hsv. simpl. lia.
Qed.

(** C9. Production flat at 500, demand flat at 900, capacity 1000 and hence
    an initial level of 500: hour 0 covers its deficit of 400 from storage
    (level 100, no backup); hour 1 finds only 100 stored (backup 300, level
    0); every later hour needs a backup of exactly 400 with the level at 0.
    Both simulators produce this trace: [simulate_energy_balance] in its
    per-hour arrays, the loop of [calc_all] in the level each iteration
    records and in what it adds to the running total, which ends the year at
    300 + 8758 x 400 = 3 503 500. *)
Theorem scenario_flat_deficit :
  1000 * 0.5 == 500 /\
  (exists gas sv,
     Analysis.simulate_with_capacity 1000
       (replicate HOURS_PER_YEAR 500) (replicate HOURS_PER_YEAR 900) = Some (gas, sv) /\
     (exists v b, sv !! 0%nat = Some v /\ gas !! 0%nat = Some b /\ v == 100 /\ b == 0) /\
     (exists v b, sv !! 1%nat = Some v /\ gas !! 1%nat = Some b /\ v == 0 /\ b == 300) /\
     (forall h, (2 <= h < HOURS_PER_YEAR)%nat ->
        exists v b, sv !! h = Some v /\ gas !! h = Some b /\ v == 0 /\ b == 400))
  /\
  (exists st0 st1 st2 st,
     calc_all_loop 1000 (replicate HOURS_PER_YEAR 500) (replicate HOURS_PER_YEAR 900) 0
       = Some st0 /\
     Optimization.storage st0 == 500 /\ Optimization.gas_consumption st0 == 0 /\
     Optimization.storage_values st0 = [] /\
     calc_all_loop 1000 (replicate HOURS_PER_YEAR 500) (replicate HOURS_PER_YEAR 900) 1
       = Some st1 /\
     Optimization.storage st1 == 100 /\
     Optimization.gas_consumption st1 == Optimization.gas_consumption st0 /\
     Optimization.storage_values st1 = [Optimization.storage st1] /\
     calc_all_loop 1000 (replicate HOURS_PER_YEAR 500) (replicate HOURS_PER_YEAR 900) 2
       = Some st2 /\
     Optimization.storage st2 == 0 /\
     Optimization.gas_consumption st2 == Optimization.gas_consumption st1 + 300 /\
     Optimization.storage_values st2
       = Optimization.storage_values st1 ++ [Optimization.storage st2] /\
     (forall h, (2 <= h < HOURS_PER_YEAR)%nat ->
        exists s s',
          calc_all_loop 1000 (replicate HOURS_PER_YEAR 500) (replicate HOURS_PER_YEAR 900) h
            = Some s /\
          calc_all_loop 1000 (replicate HOURS_PER_YEAR 500) (replicate HOURS_PER_YEAR 900)
            (S h) = Some s' /\
          Optimization.storage s' == 0 /\
          Optimization.gas_consumption s' == Optimization.gas_consumption s + 400 /\
          Optimization.storage_values s'
            = Optimization.storage_values s ++ [Optimization.storage s']) /\
     calc_all_loop 1000 (replicate HOURS_PER_YEAR 500) (replicate HOURS_PER_YEAR 900)
       HOURS_PER_YEAR = Some st /\
     length (Optimization.storage_values st) = HOURS_PER_YEAR /\
     Optimization.gas_consumption st == 3503500).
Proof.
  split; [reflexivity|]. split; [exact scenario_analysis|].
  destruct scenario_loop_after_2 as [L1 L2].
  assert (H2 : (2 <= HOURS_PER_YEAR)%nat) by (unfold HOURS_PER_YEAR; lia).
  destruct (scenario_loop_later (HOURS_PER_YEAR - 2) ltac:(lia)) as (g & sv & Hst & Hg & Hsv).
  replace (2 + (HOURS_PER_YEAR - 2))%nat with HOURS_PER_YEAR in Hst, Hsv by lia.
  eexists _, _, _, _.
  split; [reflexivity|]. cbn [Optimization.storage Optimization.gas_consumption
                              Optimization.storage_values].
  split; [reflexivity|]. split; [reflexivity|]. split; [reflexivity|].
  split; [exact L1|]. cbn [Optimization.storage Optimization.gas_consumption
                           Optimization.storage_values].
  split; [reflexivity|]. split; [reflexivity|]. split; [reflexivity|].
  split; [exact L2|]. cbn [Optimization.storage Optimization.gas_consumption
                           Optimization.storage_values].
  split; [reflexivity|]. split; [reflexivity|]. split; [reflexivity|].
  split.
  { intros h Hh.
    destruct (scenario_loop_later (h - 2) ltac:(lia)) as (g' & sv' & Hs & _ & _).
    replace (2 + (h - 2))%nat with h in Hs by lia.
    eexists _, _. split; [exact Hs|]. split.
    { rewrite (scenario_loop_step h _ ltac:(lia) Hs).
      cbn [Optimization.storage Optimization.gas_consumption Optimization.storage_values].
      rewrite scenario_later. cbn [fst snd]. change (Py.gt 400 0) with true. cbn iota.
      reflexivity. }
    cbn [Optimization.storage Optimization.gas_consumption Optimization.storage_values].
    conj_split; reflexivity. }
  split; [exact Hst|]. cbn [Optimization.storage Optimization.gas_consumption
                            Optimization.storage_values].
  split; [exact Hsv|].
  rewrite Hg.
  assert (E : inject_Z (Z.of_nat (HOURS_PER_YEAR - 2)) == 8758) by (vm_compute; reflexivity).
  rewrite E. reflexivity.
Qed.

(** ** The entry point [calc_all] and the objective *)

(** C10. Once the module's series are loaded, [calc_all] returns, for every
    mix, either a triple whose storage trace has exactly 8760 entries (storage
    capacity above 0) or exactly (1e30, [], []) (storage capacity 0 or
    below). *)
Theorem calc_all_return_shape
    (raw_irradiation raw_demand raw_wind_speed raw_wind_power : list Q)
    (env : Optimization.series) (Nmills Npanels NSMR : Q) :
  Optimization.load raw_irradiation raw_demand raw_wind_speed raw_wind_power = Some env ->
  (0 < Optimization.storage_kwh Nmills Npanels NSMR ->
     exists gas sv tp,
       Optimization.calc_all env Nmills Npanels NSMR = Some (gas, sv, tp) /\
       length sv = HOURS_PER_YEAR) /\
  (Optimization.storage_kwh Nmills Npanels NSMR <= 0 ->
     Optimization.calc_all env Nmills Npanels NSMR = Some (1e30, [], [])).
Proof.
  intros Hload. destruct (load_lengths _ _ _ _ _ Hload) as (Hi & _ & Hw & Hd).
  split.
  - intros Hpos.
    destruct (calc_all_feasible env Nmills Npanels NSMR Hw Hi ltac:(lia) Hpos)
      as (gas & sv & tp & bs & Hrun & Hsv & _).
    exists gas, sv, tp. split; assumption.
  - apply calc_all_infeasible.
Qed.

Lemma calc_all_return_shape_witness :
  exists env,
    Optimization.load [1] [2] [3] [4] = Some env /\
    (0 < Optimization.storage_kwh 1 1 1 ->
       exists gas sv tp,
         Optimization.calc_all env 1 1 1 = Some (gas, sv, tp) /\
         length sv = HOURS_PER_YEAR) /\
    (Optimization.storage_kwh 1 1 1 <= 0 ->
       Optimization.calc_all env 1 1 1 = Some (1e30, [], [])).
Proof.
  eexists. split; [vm_compute; reflexivity|].
  apply (calc_all_return_shape [1] [2] [3] [4]). vm_compute. reflexivity.
Defined.

Lemma ensure_8760_singleton (x : Q) :
  ensure_8760 [x] = Some ([x] ++ replicate (HOURS_PER_YEAR - 1) x).
Proof.
  rewrite ensure_8760_short by (simpl; unfold HOURS_PER_YEAR; lia). reflexivity.
Qed.

Lemma load_singletons (a b c d : Q) :
  Optimization.load [a] [b] [c] [d] =
    Some (Optimization.Series ([a] ++ replicate (HOURS_PER_YEAR - 1) a)
                              ([c] ++ replicate (HOURS_PER_YEAR - 1) c)
                              ([d] ++ replicate (HOURS_PER_YEAR - 1) d)
                              ([b] ++ replicate (HOURS_PER_YEAR - 1) b)).
Proof. unfold Optimization.load. rewrite !ensure_8760_singleton. reflexivity. Qed.

Lemma lookup_padded (x w : Q) (n h : nat) :
  ([x] ++ replicate n x) !! h = Some w -> w = x.
Proof.
  destruct h as [|h]; simpl; intros E.
  - congruence.
  - apply lookup_replicate in E as [-> _]. reflexivity.
Qed.

Lemma hydro_capacity_value : Optimization.hydro_capacity == 76644.
Proof. vm_compute. reflexivity. Qed.

Lemma hourly_production_nonneg (Nmills Npanels NSMR w i : Q) :
  0 <= Nmills -> 0 <= Npanels -> 0 <= NSMR -> 0 <= w -> 0 <= i ->
  0 <= hourly_production Nmills Npanels NSMR w i.
Proof.
  intros HN HP HS Hw Hi. unfold hourly_production.
  rewrite hydro_capacity_value.
  assert (H1 : 0 <= Nmills * w) by (apply Qmult_le_0_compat; assumption).
  assert (H2 : 0 <= i / 1000) by (apply Qle_shift_div_l; lra).
  assert (H3 : 0 <= Npanels * (i / 1000)) by (apply Qmult_le_0_compat; assumption).
  set (a := Nmills * w) in *. set (b := Npanels * (i / 1000)) in *.
  lra.
Qed.

Lemma in_bounds_nonneg (Nmills Npanels NSMR : Q) :
  Optimization.in_bounds (Nmills, Npanels, NSMR) ->
  0 <= Nmills /\ 0 <= Npanels /\ 0 <= NSMR.
Proof.
  unfold Optimization.in_bounds, Optimization.bounds. intros H.
  inversion H as [|? ? ? ? [H1 _] H']; subst.
  inversion H' as [|? ? ? ? [H2 _] H'']; subst.
  inversion H'' as [|? ? ? ? [H3 _] _]; subst.
  auto.
Qed.

(** ** Budget model *)

(** C1 (the code departs from it). [calc_all] uses the residual budget itself
    as the storage capacity, without dividing by the storage cost per kWh:
    for the mix (0, 0, 0), with demand equal to production, the level recorded
    at hour 0 is 4 407 300 000 kWh, far above the capacity
    (budget - cost) / cost_storage_kwh = 88 146 000 kWh; the stand-alone
    analysis does divide. *)
Theorem calc_all_capacity_not_divided :
  (exists gas sv tp v,
     Optimization.calc_all
       (Optimization.Series (replicate HOURS_PER_YEAR 0) []
          (replicate HOURS_PER_YEAR 0) (replicate HOURS_PER_YEAR 76644)) 0 0 0
       = Some (gas, sv, tp) /\
     sv !! 0%nat = Some v /\
     v == 4407300000 /\
     (Optimization.total_investment
      - (0 * Optimization.cost_wind + 0 * Optimization.cost_panels
         + 0 * Optimization.cost_smr)) / Optimization.cost_storage_kwh == 88146000 /\
     88146000 < v) /\
  Analysis.storage_capacity ==
    (Analysis.total_investment
     - (625 * Analysis.cost_wind + 4759059 * Analysis.cost_panels + 5 * Analysis.cost_smr))
    / Analysis.cost_storage_kwh.
Proof.
  split; [|vm_compute; reflexivity].
  assert (H0 : (0 < HOURS_PER_YEAR)%nat) by (unfold HOURS_PER_YEAR; lia).
  destruct (calc_all_feasible
              (Optimization.Series (replicate HOURS_PER_YEAR 0) []
                 (replicate HOURS_PER_YEAR 0) (replicate HOURS_PER_YEAR 76644)) 0 0 0)
    as (gas & sv & tp & bs & Hrun & _ & _ & _ & _ & Hlookup & Htrace).
  { apply length_replicate. }
  { apply length_replicate. }
  { cbn [Optimization.hourly_demand]. rewrite length_replicate. lia. }
  { reflexivity. }
  cbn [Optimization.hourly_demand Optimization.wind_power Optimization.irradiation] in *.
  destruct (Htrace 0%nat H0) as (p & d & Hp & Hd & Hv & _).
  rewrite (Hlookup 0%nat 0 0) in Hp by (apply lookup_replicate_2; exact H0).
  injection Hp as <-. apply lookup_replicate in Hd as [-> _].
  cbn [level_before] in Hv.
  eexists gas, sv, tp, _. conj_split; [exact Hrun | exact Hv | | |];
    vm_compute; reflexivity.
Qed.

(** ** Infeasibility sentinel *)

(** C5, as worded, fails: with an hourly demand of 2e30 the feasible mix
    (0, 0, 0), which lies inside the search bounds, has an objective above
    the sentinel 1e30. *)
Lemma sentinel_not_above_every_objective :
  ~ (forall (ri rd rs rp : list Q) (env : Optimization.series) (Nmills Npanels NSMR g : Q),
       Optimization.load ri rd rs rp = Some env ->
       Optimization.in_bounds (Nmills, Npanels, NSMR) ->
       0 < Optimization.storage_kwh Nmills Npanels NSMR ->
       Optimization.optimization_function env (Nmills, Npanels, NSMR) = Some g ->
       g < 1e30).
Proof.
  intros Hclaim.
  assert (H0 : (0 < HOURS_PER_YEAR)%nat) by (unfold HOURS_PER_YEAR; lia).
  pose proof (load_singletons 0 2e30 0 0) as Hload.
  destruct (load_lengths _ _ _ _ _ Hload) as (Hi & _ & Hw & Hd).
  destruct (calc_all_feasible _ 0 0 0 Hw Hi ltac:(lia) ltac:(reflexivity))
    as (gas & sv & tp & bs & Hrun & _ & _ & Hbs & Hgas & Hlookup & Htrace).
  cbn [Optimization.hourly_demand Optimization.wind_power Optimization.irradiation] in *.
  assert (Hb : forall j y, bs !! j = Some y -> 0 <= y).
  { intros j y Hy.
    assert (Hj : (j < HOURS_PER_YEAR)%nat)
      by (rewrite <- Hbs; apply lookup_lt_is_Some; eauto).
    destruct (Htrace j Hj) as (p & d & _ & _ & _ & Hbj).
    rewrite Hy in Hbj. injection Hbj as ->. apply spec_transition_backup_nonneg. }
  destruct (Htrace 0%nat H0) as (p & d & Hp & Hd0 & _ & Hb0).
  rewrite (Hlookup 0%nat 0 0) in Hp by reflexivity.
  injection Hp as <-. injection Hd0 as <-.
  cbn [level_before] in Hb0.
  pose proof (Qsum_ge_elem bs 0%nat _ Hb Hb0) as Hge.
  assert (Hbig : 1e30 <
            (spec_transition (Optimization.storage_kwh 0 0 0)
               (Optimization.storage_kwh 0 0 0 * 0.5)
               (hourly_production 0 0 0 0 0) 2e30).2)
    by (vm_compute; reflexivity).
  assert (Hg : gas < 1e30).
  { apply (Hclaim [0] [2e30] [0] [0] _ 0 0 0 gas Hload).
    - unfold Optimization.in_bounds, Optimization.bounds.
      repeat constructor; apply Qle_bool_iff; vm_compute; reflexivity.
    - reflexivity.
    - unfold Optimization.optimization_function. rewrite Hrun. reflexivity. }
  rewrite Hgas in Hg. lra.
Qed.

(** C5 (amended). A mix whose cost leaves no money for storage gets the
    sentinel 1e30 as objective without the simulation being run (whatever the
    series are, even series on which the loop would fail). For a feasible mix
    inside the search bounds the objective is strictly below the sentinel
    provided the wind-output and irradiance series are non-negative and the
    positive demand of the year sums to less than 1e30. *)
Theorem infeasibility_sentinel
    (ri rd rs rp : list Q) (env : Optimization.series) (Nmills Npanels NSMR : Q) :
  Optimization.load ri rd rs rp = Some env ->
  (Optimization.storage_kwh Nmills Npanels NSMR <= 0 ->
     forall any : Optimization.series,
       Optimization.optimization_function any (Nmills, Npanels, NSMR) = Some 1e30) /\
  (0 < Optimization.storage_kwh Nmills Npanels NSMR ->
   Optimization.in_bounds (Nmills, Npanels, NSMR) ->
   (forall h w, Optimization.wind_power env !! h = Some w -> 0 <= w) ->
   (forall h i, Optimization.irradiation env !! h = Some i -> 0 <= i) ->
   Qsum (map (Py.max 0) (Optimization.hourly_demand env)) < 1e30 ->
   exists g,
     Optimization.optimization_function env (Nmills, Npanels, NSMR) = Some g /\
     g < 1e30).
Proof.
  intros Hload. split.
  - intros Hle any. unfold Optimization.optimization_function.
    rewrite calc_all_infeasible by exact Hle. reflexivity.
  - intros Hpos Hin Hwind Hirr Hdemand.
    destruct (load_lengths _ _ _ _ _ Hload) as (Hi & _ & Hw & Hd).
    destruct (in_bounds_nonneg _ _ _ Hin) as (HN & HP & HS).
    destruct (calc_all_feasible env Nmills Npanels NSMR Hw Hi ltac:(lia) Hpos)
      as (gas & sv & tp & bs & Hrun & _ & _ & Hbs & Hgas & Hlookup & Htrace).
    exists gas. split.
    { unfold Optimization.optimization_function. rewrite Hrun. reflexivity. }
    assert (Hlev : forall i, (i < HOURS_PER_YEAR)%nat ->
              exists v, sv !! i = Some v /\
                        0 <= v <= Optimization.storage_kwh Nmills Npanels NSMR).
    { apply (trace_levels_bounded _ tp (Optimization.hourly_demand env) sv _ Hpos).
      intros h Hh. destruct (Htrace h Hh) as (p & d & Hp & Hd' & Hv & _). eauto. }
    rewrite Hgas. eapply Qle_lt_trans; [|exact Hdemand].
    apply Qsum_le_pointwise.
    { rewrite length_map. lia. }
    intros i x y Hx Hy.
    assert (Hlt : (i < HOURS_PER_YEAR)%nat)
      by (rewrite <- Hbs; apply lookup_lt_is_Some; eauto).
    destruct (Htrace i Hlt) as (p & d & Hp & Hd' & _ & Hb).
    rewrite Hx in Hb. injection Hb as ->.
    rewrite map_lookup, Hd' in Hy. injection Hy as <-.
    destruct (lookup_lt_is_Some_2 (Optimization.wind_power env) i ltac:(lia)) as [w Hwi].
    destruct (lookup_lt_is_Some_2 (Optimization.irradiation env) i ltac:(lia)) as [r Hri].
    rewrite (Hlookup i w r Hwi Hri) in Hp. injection Hp as <-.
    apply spec_transition_backup_le.
    + apply (level_before_bounded _ sv HOURS_PER_YEAR i Hpos Hlev). lia.
    + apply hourly_production_nonneg; eauto.
Qed.

Lemma infeasibility_sentinel_witness :
  exists env,
    Optimization.load [0] [1] [0] [0] = Some env /\
    (forall any : Optimization.series,
       Optimization.optimization_function any (0, 0, 36) = Some 1e30) /\
    (exists g, Optimization.optimization_function env (1, 1, 1) = Some g /\ g < 1e30).
Proof.
  eexists. split; [apply load_singletons|].
  pose proof (infeasibility_sentinel [0] [1] [0] [0] _ 0 0 36 (load_singletons 0 1 0 0))
    as [Hinf _].
  pose proof (infeasibility_sentinel [0] [1] [0] [0] _ 1 1 1 (load_singletons 0 1 0 0))
    as [_ Hfeas].
  split.
  - apply Hinf. apply Qle_bool_iff. vm_compute. reflexivity.
  - apply Hfeas.
    + reflexivity.
    + unfold Optimization.in_bounds, Optimization.bounds.
      repeat constructor; apply Qle_bool_iff; vm_compute; reflexivity.
    + intros h w Hw. apply lookup_padded in Hw as ->. apply Qle_refl.
    + intros h i Hi. apply lookup_padded in Hi as ->. apply Qle_refl.
    + vm_compute. reflexivity.
Defined.

(** * Further properties of the code *)

(** ** Normaliser: failure and samples *)

Lemma ensure_8760_none_iff (data : list Q) :
  ensure_8760 data = None <-> data = [].
Proof.
  split.
  - intros E. destruct data as [|x data]; [reflexivity|].
    destruct (ensure_8760_nonempty (x :: data)) as [out Hout]; [simpl; lia|].
    congruence.
  - intros ->. rewrite ensure_8760_short by (simpl; unfold HOURS_PER_YEAR; lia).
    reflexivity.
Qed.

(** X1. The normaliser fails exactly on the empty series: padding in edge
    mode has no last sample to repeat. *)
Theorem ensure_8760_none_iff_empty (data : list Q) :
  ensure_8760 data = None <-> data = [].
Proof. exact (ensure_8760_none_iff data). Qed.

(** X2. The normaliser keeps every sample of the first 8760 in place, fills
    the hours beyond a shorter input with the input's last sample, and never
    produces a value that is not a sample of the input. *)
Theorem ensure_8760_samples (data out : list Q) :
  ensure_8760 data = Some out ->
  (forall h, (h < length data)%nat -> (h < HOURS_PER_YEAR)%nat -> out !! h = data !! h) /\
  (forall h, (length data <= h < HOURS_PER_YEAR)%nat -> out !! h = list.last data) /\
  (forall x, x ∈ out -> x ∈ data).
Proof.
  intros E.
  destruct (Nat.lt_trichotomy (length data) HOURS_PER_YEAR) as [Hlt | [Heq | Hgt]].
  - rewrite ensure_8760_short in E by exact Hlt. unfold Np.pad_edge in E.
    destruct (list.last data) as [x|] eqn:Hlast; [|discriminate].
    injection E as <-. conj_split.
    + intros h Hh _. apply lookup_app_l. exact Hh.
    + intros h Hh. rewrite lookup_app_r by lia. apply lookup_replicate_2. lia.
    + intros y Hy. apply elem_of_app in Hy as [Hy|Hy]; [exact Hy|].
      apply elem_of_replicate_inv in Hy. subst y.
      apply last_Some_elem_of. exact Hlast.
  - rewrite ensure_8760_exact in E by exact Heq. injection E as <-. conj_split.
    + reflexivity.
    + intros h Hh. lia.
    + auto.
  - rewrite ensure_8760_long in E by exact Hgt. injection E as <-. conj_split.
    + intros h _ Hh. apply lookup_take_lt. exact Hh.
    + intros h Hh. lia.
    + intros y Hy. apply elem_of_take in Hy as (i & Hi & _).
      apply list_elem_of_lookup_2 in Hi. exact Hi.
Qed.

Lemma ensure_8760_samples_witness :
  exists out,
    ensure_8760 [3; 1; 2] = Some out /\
    (forall h, (h < length [3; 1; 2])%nat -> (h < HOURS_PER_YEAR)%nat ->
       out !! h = [3; 1; 2] !! h) /\
    (forall h, (length [3; 1; 2] <= h < HOURS_PER_YEAR)%nat ->
       out !! h = list.last [3; 1; 2]) /\
    (forall x, x ∈ out -> x ∈ [3; 1; 2]).
Proof.
  eexists. split; [vm_compute; reflexivity|].
  apply (ensure_8760_samples [3; 1; 2]). vm_compute. reflexivity.
Defined.

(** X3. Loading the module's series fails exactly when one of the four raw
    columns is empty. *)
Theorem load_none_iff_empty_column (ri rd rs rp : list Q) :
  Optimization.load ri rd rs rp = None <-> ri = [] \/ rd = [] \/ rs = [] \/ rp = [].
Proof.
  unfold Optimization.load.
  rewrite <- (ensure_8760_none_iff ri), <- (ensure_8760_none_iff rd),
          <- (ensure_8760_none_iff rs), <- (ensure_8760_none_iff rp).
  destruct (ensure_8760 ri), (ensure_8760 rs), (ensure_8760 rp), (ensure_8760 rd);
    simpl; split; intros H; try discriminate; auto;
    destruct H as [H | [H | [H | H]]]; discriminate.
Qed.

(** ** The two simulators agree *)

Lemma min_ge_both (a b lo : Q) : lo <= a -> lo <= b -> lo <= Py.min a b.
Proof. intros Ha Hb. unfold Py.min. destruct (Py.lt b a); assumption. Qed.


Lemma traces_agree (cap init : Q) (tp hd sv1 sv2 : list Q) (n : nat) :
  (forall h, (h < n)%nat ->
     exists p d, tp !! h = Some p /\ hd !! h = Some d /\
       sv1 !! h = Some (spec_transition cap (level_before init sv1 h) p d).1) ->
  (forall h, (h < n)%nat ->
     exists p d, tp !! h = Some p /\ hd !! h = Some d /\
       sv2 !! h = Some (spec_transition cap (level_before init sv2 h) p d).1) ->
  forall h, (h < n)%nat -> sv1 !! h = sv2 !! h.
Proof.
  intros H1 H2 h. induction h as [|h IH]; intros Hh.
  - destruct (H1 O Hh) as (p & d & Hp & Hd & Hv1).
    destruct (H2 O Hh) as (p' & d' & Hp' & Hd' & Hv2).
    rewrite Hv1, Hv2. cbn [level_before]. congruence.
  - destruct (H1 (S h) Hh) as (p & d & Hp & Hd & Hv1).
    destruct (H2 (S h) Hh) as (p' & d' & Hp' & Hd' & Hv2).
    rewrite Hv1, Hv2. cbn [level_before]. rewrite (IH ltac:(lia)). congruence.
Qed.

(** X5. Run on the same capacity and series, the loop of [calc_all] and the
    loop of [simulate_energy_balance] record the same storage trace, hour
    for hour. *)
Theorem simulators_agree (cap : Q) (tp hd : list Q) :
  (HOURS_PER_YEAR <= length tp)%nat -> (HOURS_PER_YEAR <= length hd)%nat ->
  exists gas sv st,
    Analysis.simulate_with_capacity cap tp hd = Some (gas, sv) /\
    calc_all_loop cap tp hd HOURS_PER_YEAR = Some st /\
    length sv = HOURS_PER_YEAR /\
    Optimization.storage_values st = sv.
Proof.
  intros Htp Hhd.
  destruct (analysis_trace cap tp hd Htp Hhd)
    as (gas & sv & Hrun & Hgl & Hsl & Htrace).
  destruct (optimization_trace cap tp hd Htp Hhd)
    as (st & bs & Hrun' & Hsl' & Hbl & Hgas & Htrace').
  exists gas, sv, st. conj_split; [exact Hrun | exact Hrun' | exact Hsl |].
  apply (list_eq_same_length _ _ HOURS_PER_YEAR); [exact Hsl | exact Hsl' |].
  intros i x y Hi Hx Hy.
  pose proof (traces_agree cap (cap * 0.5) tp hd (Optimization.storage_values st) sv
                HOURS_PER_YEAR) as Hag.
  rewrite Hag in Hx; [congruence | | | exact Hi].
  - intros h Hh. destruct (Htrace' h Hh) as (p & d & Hp & Hd & Hv & _). eauto.
  - intros h Hh. destruct (Htrace h Hh) as (p & d & Hp & Hd & Hv & _). eauto.
Qed.

Lemma simulators_agree_witness :
  exists gas sv st,
    Analysis.simulate_with_capacity 1000
      (replicate HOURS_PER_YEAR 500) (replicate HOURS_PER_YEAR 900) = Some (gas, sv) /\
    calc_all_loop 1000 (replicate HOURS_PER_YEAR 500) (replicate HOURS_PER_YEAR 900)
      HOURS_PER_YEAR = Some st /\
    length sv = HOURS_PER_YEAR /\
    Optimization.storage_values st = sv.
Proof.
  apply (simulators_agree 1000
           (replicate HOURS_PER_YEAR 500) (replicate HOURS_PER_YEAR 900));
    rewrite length_replicate; lia.
Defined.

(** ** Series that do not cover the year *)

Lemma for_each_ext {S : Type} (f g : nat -> S -> option S) (hours : list nat) :
  (forall h s, h ∈ hours -> f h s = g h s) ->
  forall st, for_each f hours st = for_each g hours st.
Proof.
  induction hours as [|h hours IH]; intros Hfg st; [reflexivity|].
  simpl. rewrite (Hfg h st) by apply list_elem_of_here.
  destruct (g h st) as [s1|]; [|reflexivity].
  apply IH. intros k s Hk. apply Hfg. apply list_elem_of_further. exact Hk.
Qed.

Lemma analysis_hour_missing (cap : Q) (tp hd : list Q) (k : nat) (st : Analysis.state) :
  tp !! k = None \/ hd !! k = None -> Analysis.hour cap tp hd k st = None.
Proof.
  intros H. unfold Analysis.hour.
  destruct (tp !! k) as [p|]; [|reflexivity].
  destruct H as [H|H]; [discriminate|]. rewrite H. reflexivity.
Qed.

(** X6. The dispatch simulator returns a result exactly when both series
    have at least 8760 samples; on a shorter series the indexing of the
    missing hour raises. *)
Theorem simulate_defined_iff_year_covered (cap : Q) (tp hd : list Q) :
  is_Some (Analysis.simulate_with_capacity cap tp hd) <->
  (HOURS_PER_YEAR <= length tp)%nat /\ (HOURS_PER_YEAR <= length hd)%nat.
Proof.
  split.
  - intros [r Hr]. unfold Analysis.simulate_with_capacity in Hr.
    destruct (Nat.le_gt_cases HOURS_PER_YEAR (Nat.min (length tp) (length hd)))
      as [Hle | Hgt]; [lia|].
    rewrite (for_each_seq_fails _ HOURS_PER_YEAR 0%nat _
               (Nat.min (length tp) (length hd))) in Hr; [discriminate | lia |].
    intros s. apply analysis_hour_missing.
    destruct (Nat.le_ge_cases (length tp) (length hd)).
    + left. apply lookup_ge_None_2. lia.
    + right. apply lookup_ge_None_2. lia.
  - intros [Htp Hhd].
    destruct (analysis_trace cap tp hd Htp Hhd) as (gas & sv & Hrun & _).
    rewrite Hrun. eauto.
Qed.

(** X7. The dispatch simulator reads only the first 8760 samples of each
    series: samples beyond the year never influence the result. *)
Theorem simulate_ignores_later_samples (cap : Q) (tp hd : list Q) :
  Analysis.simulate_with_capacity cap tp hd =
  Analysis.simulate_with_capacity cap (take HOURS_PER_YEAR tp) (take HOURS_PER_YEAR hd).
Proof.
  unfold Analysis.simulate_with_capacity.
  rewrite (for_each_ext (Analysis.hour cap tp hd)
             (Analysis.hour cap (take HOURS_PER_YEAR tp) (take HOURS_PER_YEAR hd))).
  - reflexivity.
  - intros h s Hh. apply elem_of_seq in Hh.
    unfold Analysis.hour. rewrite !lookup_take_lt by lia. reflexivity.
Qed.

(** ** The objective over the whole parameter space *)

(** X8. Once the series are loaded the objective is defined for every
    parameter triple, inside or outside the bounds, and is never a negative
    number. *)
Theorem objective_defined_nonneg
    (ri rd rs rp : list Q) (env : Optimization.series) (params : Q * Q * Q) :
  Optimization.load ri rd rs rp = Some env ->
  exists g, Optimization.optimization_function env params = Some g /\ ~ (g < 0).
Proof.
  intros Hload. destruct params as [[Nmills Npanels] NSMR].
  destruct (load_lengths _ _ _ _ _ Hload) as (Hi & _ & Hw & Hd).
  unfold Optimization.optimization_function.
  destruct (Qlt_le_dec 0 (Optimization.storage_kwh Nmills Npanels NSMR)) as [Hpos | Hle].
  - destruct (calc_all_feasible env Nmills Npanels NSMR Hw Hi ltac:(lia) Hpos)
      as (gas & sv & tp & bs & Hrun & _ & _ & Hbs & Hgas & _ & Htrace).
    exists gas. rewrite Hrun. split; [reflexivity|].
    assert (Hnn : 0 <= Qsum bs).
    { apply Qsum_nonneg. intros i x Hx.
      assert (Hlt : (i < HOURS_PER_YEAR)%nat)
        by (rewrite <- Hbs; apply lookup_lt_is_Some; eauto).
      destruct (Htrace i Hlt) as (p & d & _ & _ & _ & Hb).
      rewrite Hx in Hb. injection Hb as ->. apply spec_transition_backup_nonneg. }
    rewrite Hgas. lra.
  - rewrite calc_all_infeasible by exact Hle.
    exists 1e30. split; [reflexivity|]. intros Hneg. vm_compute in Hneg. discriminate Hneg.
Qed.

Lemma objective_defined_nonneg_witness :
  exists env g,
    Optimization.load [1] [2] [3] [4] = Some env /\
    Optimization.optimization_function env (1, 1, 1) = Some g /\ ~ (g < 0).
Proof.
  destruct (objective_defined_nonneg [1] [2] [3] [4] _ (1, 1, 1) (load_singletons 1 2 3 4))
    as (g & Hg).
  eexists _, g. split; [apply load_singletons | exact Hg].
Defined.

(** ** A year without shortfall *)

(** X9. When production is at least the demand in every hour and the
    capacity is positive, no backup is used in any hour, the storage level
    never falls from one hour to the next, and the total of [calc_all]'s
    loop is zero. *)
Theorem no_backup_without_shortfall (cap : Q) (tp hd : list Q) :
  0 < cap ->
  (HOURS_PER_YEAR <= length tp)%nat -> (HOURS_PER_YEAR <= length hd)%nat ->
  (forall h p d, (h < HOURS_PER_YEAR)%nat ->
     tp !! h = Some p -> hd !! h = Some d -> d <= p) ->
  (exists gas sv,
     Analysis.simulate_with_capacity cap tp hd = Some (gas, sv) /\
     forall h, (h < HOURS_PER_YEAR)%nat ->
       gas !! h = Some 0 /\
       exists v, sv !! h = Some v /\ level_before (cap * 0.5) sv h <= v)
  /\
  (exists st,
     for_each (Optimization.hour cap tp hd) (seq 0 HOURS_PER_YEAR)
       (Optimization.State (cap * Optimization.initial_storage_fraction) 0 []) = Some st /\
     Optimization.gas_consumption st == 0).
Proof.
  intros Hcap Htp Hhd Hcover.
  assert (Hstep : forall s p d, 0 <= s <= cap -> d <= p ->
            (spec_transition cap s p d).2 = 0 /\ s <= (spec_transition cap s p d).1).
  { intros s p d [Hs0 Hs1] Hdp. unfold spec_transition.
    destruct (Py.gt (p - d) 0) eqn:G; cbn [fst snd].
    - apply gt_true in G. split; [reflexivity|]. apply min_ge_both; lra.
    - apply gt_false in G.
      destruct (Py.ge s (- (p - d))) eqn:E; cbn [fst snd].
      + split; [reflexivity | lra].
      + apply ge_false in E. lra. }
  split.
  - destruct (analysis_trace cap tp hd Htp Hhd) as (gas & sv & Hrun & _ & _ & Htrace).
    exists gas, sv. split; [exact Hrun|].
    assert (Hlev : forall i, (i < HOURS_PER_YEAR)%nat ->
              exists v, sv !! i = Some v /\ 0 <= v <= cap).
    { apply (trace_levels_bounded cap tp hd sv _ Hcap).
      intros h Hh. destruct (Htrace h Hh) as (p & d & Hp & Hd & Hv & _). eauto. }
    intros h Hh. destruct (Htrace h Hh) as (p & d & Hp & Hd & Hv & Hb).
    destruct (Hstep (level_before (cap * 0.5) sv h) p d) as [Hz Hup].
    { apply (level_before_bounded cap sv HOURS_PER_YEAR h Hcap Hlev). lia. }
    { apply (Hcover h); assumption. }
    rewrite Hz in Hb. split; [exact Hb|]. eexists. split; [exact Hv | exact Hup].
  - destruct (optimization_trace cap tp hd Htp Hhd)
      as (st & bs & Hrun & _ & Hbs & Hgas & Htrace).
    exists st. split; [exact Hrun|].
    assert (Hlev : forall i, (i < HOURS_PER_YEAR)%nat ->
              exists v, Optimization.storage_values st !! i = Some v /\ 0 <= v <= cap).
    { apply (trace_levels_bounded cap tp hd _ _ Hcap).
      intros h Hh. destruct (Htrace h Hh) as (p & d & Hp & Hd & Hv & _). eauto. }
    assert (Hall : bs = replicate HOURS_PER_YEAR 0).
    { apply (list_eq_same_length _ _ HOURS_PER_YEAR);
        [apply length_replicate | exact Hbs |].
      intros i x y Hi Hx Hy. apply lookup_replicate in Hy as [-> _].
      destruct (Htrace i Hi) as (p & d & Hp & Hd & _ & Hb).
      destruct (Hstep (level_before (cap * 0.5) (Optimization.storage_values st) i) p d)
        as [Hz _].
      { apply (level_before_bounded cap _ HOURS_PER_YEAR i Hcap Hlev). lia. }
      { apply (Hcover i); assumption. }
      congruence. }
    rewrite Hgas, Hall, Qsum_replicate. lra.
Qed.

Lemma no_backup_without_shortfall_witness :
  (exists gas sv,
     Analysis.simulate_with_capacity 500
       (replicate HOURS_PER_YEAR 1000) (replicate HOURS_PER_YEAR 900) = Some (gas, sv) /\
     forall h, (h < HOURS_PER_YEAR)%nat ->
       gas !! h = Some 0 /\
       exists v, sv !! h = Some v /\ level_before (500 * 0.5) sv h <= v)
  /\
  (exists st,
     for_each (Optimization.hour 500
                 (replicate HOURS_PER_YEAR 1000) (replicate HOURS_PER_YEAR 900))
       (seq 0 HOURS_PER_YEAR)
       (Optimization.State (500 * Optimization.initial_storage_fraction) 0 []) = Some st /\
     Optimization.gas_consumption st == 0).
Proof.
  apply (no_backup_without_shortfall 500
           (replicate HOURS_PER_YEAR 1000) (replicate HOURS_PER_YEAR 900)).
  - reflexivity.
  - rewrite length_replicate. lia.
  - rewrite length_replicate. lia.
  - intros h p d _ Hp Hd.
    apply lookup_replicate in Hp as [-> _]. apply lookup_replicate in Hd as [-> _].
    apply Qle_bool_iff. reflexivity.
Defined.

(** ** ANALYSIS BASED.py: production of the installed infrastructure *)

Lemma broadcast_long_left (op : Q -> Q -> Q) (a b : list Q) :
  (2 <= length a)%nat ->
  Np.broadcast op a b =
    if (length a =? length b)%nat then Some (zip_with op a b)
    else match b with
         | [y] => Some (map (fun x => op x y) a)
         | _ => None
         end.
Proof.
  intros Ha. destruct a as [|x [|x' a]]; simpl in Ha; try lia.
  unfold Np.broadcast. destruct (length (x :: x' :: a) =? length b)%nat; reflexivity.
Qed.

Lemma year_has_two_hours : (2 <= HOURS_PER_YEAR)%nat.
Proof. unfold HOURS_PER_YEAR. lia. Qed.

(** The product of a year-long constant array with the first 8760 samples of
    a curve: defined when the curve covers the year or is a single sample. *)
Lemma scaled_curve (c : Q) (curve : list Q) :
  match Np.broadcast Qmult (Np.full HOURS_PER_YEAR c) (take HOURS_PER_YEAR curve) with
  | Some r =>
      ((HOURS_PER_YEAR <= length curve)%nat \/ length curve = 1%nat) /\
      length r = HOURS_PER_YEAR /\
      ((HOURS_PER_YEAR <= length curve)%nat ->
         forall h, (h < HOURS_PER_YEAR)%nat -> r !! h = (Qmult c) <$> (curve !! h))
  | None => (length curve < HOURS_PER_YEAR)%nat /\ length curve <> 1%nat
  end.
Proof.
  pose proof year_has_two_hours as H2.
  rewrite broadcast_long_left by (unfold Np.full; rewrite length_replicate; exact H2).
  unfold Np.full. rewrite length_replicate, length_take.
  destruct (Nat.eqb_spec HOURS_PER_YEAR (Nat.min HOURS_PER_YEAR (length curve))) as [E|E].
  - conj_split.
    + left. lia.
    + rewrite length_zip_with, length_replicate, length_take. lia.
    + intros _ h Hh.
      rewrite lookup_zip_with, lookup_replicate_2, lookup_take_lt by exact Hh.
      destruct (curve !! h); reflexivity.
  - assert (Hlt : (length curve < HOURS_PER_YEAR)%nat) by lia.
    rewrite take_ge by lia.
    destruct curve as [|y [|y' curve]]; cbn [length] in Hlt, E.
    + split; [exact Hlt | cbn [length]; lia].
    + conj_split; [right; reflexivity | rewrite length_map, length_replicate; reflexivity
                  | intros Hc; cbn [length] in Hc; lia].
    + split; [exact Hlt | cbn [length]; lia].
Qed.

Lemma analysis_production (wind_power irradiation : list Q) :
  (HOURS_PER_YEAR <= length wind_power)%nat ->
  (HOURS_PER_YEAR <= length irradiation)%nat ->
  exists total wind solar nuclear hydro,
    Analysis.calculate_energy_production wind_power irradiation
      = Some (total, wind, solar, nuclear, hydro) /\
    length total = HOURS_PER_YEAR /\ length wind = HOURS_PER_YEAR /\
    length solar = HOURS_PER_YEAR /\ length nuclear = HOURS_PER_YEAR /\
    length hydro = HOURS_PER_YEAR /\
    forall h, (h < HOURS_PER_YEAR)%nat ->
      exists w i,
        wind_power !! h = Some w /\ irradiation !! h = Some i /\
        wind !! h = Some (Analysis.wind_turbines * w) /\
        solar !! h = Some (Analysis.solar_panels * i * 0.55 * 2.8 * 0.197) /\
        nuclear !! h = Some 244382.352845001 /\
        hydro !! h = Some 76644.0 /\
        total !! h = Some (Analysis.wind_turbines * w
                           + Analysis.solar_panels * i * 0.55 * 2.8 * 0.197
                           + 244382.352845001 + 76644.0).
Proof.
  intros Hw Hi. unfold Analysis.calculate_energy_production.
  pose proof (scaled_curve Analysis.wind_turbines wind_power) as Hwind.
  pose proof (scaled_curve Analysis.solar_panels irradiation) as Hsolar.
  destruct (Np.broadcast Qmult (Np.full HOURS_PER_YEAR Analysis.wind_turbines)
              (take HOURS_PER_YEAR wind_power)) as [wind|]; [|lia].
  destruct (Np.broadcast Qmult (Np.full HOURS_PER_YEAR Analysis.solar_panels)
              (take HOURS_PER_YEAR irradiation)) as [solar0|]; [|lia].
  destruct Hwind as (_ & Hwl & Hwv). destruct Hsolar as (_ & Hsl & Hsv).
  cbn [mbind option_bind].
  assert (Hnl : length Analysis.nuclear_production = HOURS_PER_YEAR)
    by apply length_replicate.
  assert (Hhl : length Analysis.hydro_capacity = HOURS_PER_YEAR)
    by apply length_replicate.
  rewrite broadcast_same_length by (rewrite length_map; lia).
  cbn [mbind option_bind].
  rewrite broadcast_same_length by (rewrite length_zip_with, length_map; lia).
  cbn [mbind option_bind].
  rewrite broadcast_same_length
    by (rewrite !length_zip_with, length_map; lia).
  cbn [mbind option_bind].
  eexists _, _, _, _, _. split; [reflexivity|].
  rewrite !length_zip_with, length_map.
  conj_split; try lia.
  intros h Hh.
  destruct (lookup_lt_is_Some_2 wind_power h ltac:(lia)) as [w Hwh].
  destruct (lookup_lt_is_Some_2 irradiation h ltac:(lia)) as [i Hih].
  exists w, i.
  assert (Hwind : wind !! h = Some (Analysis.wind_turbines * w))
    by (rewrite (Hwv Hw h Hh), Hwh; reflexivity).
  assert (Hsol : map (fun s => s * 0.55 * 2.8 * 0.197) solar0 !! h
                 = Some (Analysis.solar_panels * i * 0.55 * 2.8 * 0.197))
    by (rewrite map_lookup, (Hsv Hi h Hh), Hih; reflexivity).
  assert (Hnuc : Analysis.nuclear_production !! h = Some 244382.352845001)
    by (apply lookup_replicate_2; exact Hh).
  assert (Hhyd : Analysis.hydro_capacity !! h = Some 76644.0)
    by (apply lookup_replicate_2; exact Hh).
  conj_split; try assumption.
  rewrite !lookup_zip_with, Hwind, Hsol, Hnuc, Hhyd. reflexivity.
Qed.

(** C6 (the code departs from it). [calc_energy_production] returns wind,
    solar and hydro as series of exactly 8760 samples, hydro flat at its
    constant whatever the mix, but it returns the nuclear production as the
    plain number NSMR x 50 x 1000: that component has no length and cannot be
    indexed by hour. The sibling [calculate_energy_production] of the
    dispatch analysis returns nuclear as a series of 8760 equal samples, as
    the claim says. *)
Theorem nuclear_returned_as_number
    (ri rd rs rp : list Q) (env : Optimization.series) (Nmills Npanels NSMR : Q) :
  Optimization.load ri rd rs rp = Some env ->
  (exists wind solar nuclear hydro,
     Optimization.calc_energy_production env Nmills Npanels NSMR
       = (wind, solar, nuclear, hydro) /\
     py_len wind = Some HOURS_PER_YEAR /\
     py_len solar = Some HOURS_PER_YEAR /\
     py_len hydro = Some HOURS_PER_YEAR /\
     (forall h, (h < HOURS_PER_YEAR)%nat ->
        py_index hydro h = Some Optimization.hydro_capacity) /\
     nuclear = PyNum (NSMR * 50 * 1000) /\
     py_len nuclear = None /\
     (forall h, py_index nuclear h = None))
  /\
  (forall wind_power irradiation : list Q,
     (HOURS_PER_YEAR <= length wind_power)%nat ->
     (HOURS_PER_YEAR <= length irradiation)%nat ->
     exists total wind solar nuclear hydro,
       Analysis.calculate_energy_production wind_power irradiation
         = Some (total, wind, solar, nuclear, hydro) /\
       length nuclear = HOURS_PER_YEAR /\
       forall h, (h < HOURS_PER_YEAR)%nat -> nuclear !! h = Some 244382.352845001).
Proof.
  intros Hload. destruct (load_lengths _ _ _ _ _ Hload) as (Hi & _ & Hw & _).
  split.
  - unfold Optimization.calc_energy_production.
    eexists _, _, _, _. split; [reflexivity|].
    cbn [py_len py_index]. rewrite !length_map. unfold Np.full. rewrite length_replicate.
    conj_split; try reflexivity.
    + rewrite Hw. reflexivity.
    + rewrite Hi. reflexivity.
    + intros h Hh. apply lookup_replicate_2. exact Hh.
  - intros wp irr Hwp Hirr.
    destruct (analysis_production wp irr Hwp Hirr)
      as (total & wind & solar & nuclear & hydro & Hrun & _ & _ & _ & Hnl & _ & Hval).
    exists total, wind, solar, nuclear, hydro. conj_split; [exact Hrun | exact Hnl |].
    intros h Hh. destruct (Hval h Hh) as (w & i & _ & _ & _ & _ & Hn & _). exact Hn.
Qed.

Lemma nuclear_returned_as_number_witness :
  exists env,
    Optimization.load [1] [2] [3] [4] = Some env /\
    (exists wind solar nuclear hydro,
       Optimization.calc_energy_production env 1 1 1 = (wind, solar, nuclear, hydro) /\
       py_len wind = Some HOURS_PER_YEAR /\
       py_len solar = Some HOURS_PER_YEAR /\
       py_len hydro = Some HOURS_PER_YEAR /\
       (forall h, (h < HOURS_PER_YEAR)%nat ->
          py_index hydro h = Some Optimization.hydro_capacity) /\
       nuclear = PyNum (1 * 50 * 1000) /\
       py_len nuclear = None /\
       (forall h, py_index nuclear h = None)) /\
    (exists total wind solar nuclear hydro,
       Analysis.calculate_energy_production
         (replicate HOURS_PER_YEAR 3) (replicate HOURS_PER_YEAR 1)
         = Some (total, wind, solar, nuclear, hydro) /\
       length nuclear = HOURS_PER_YEAR /\
       forall h, (h < HOURS_PER_YEAR)%nat -> nuclear !! h = Some 244382.352845001).
Proof.
  destruct (nuclear_returned_as_number [1] [2] [3] [4] _ 1 1 1 (load_singletons 1 2 3 4))
    as [Hopt Hana].
  eexists. split; [apply load_singletons|]. split; [exact Hopt|].
  apply Hana; rewrite length_replicate; lia.
Defined.

(** X10. On curves that cover the year, [calculate_energy_production]
    returns five series of exactly 8760 samples each, with nuclear flat at
    244382.352845001 and hydro flat at 76644. *)
Theorem calculate_energy_production_shape (wind_power irradiation : list Q) :
  (HOURS_PER_YEAR <= length wind_power)%nat ->
  (HOURS_PER_YEAR <= length irradiation)%nat ->
  exists total wind solar nuclear hydro,
    Analysis.calculate_energy_production wind_power irradiation
      = Some (total, wind, solar, nuclear, hydro) /\
    length total = HOURS_PER_YEAR /\ length wind = HOURS_PER_YEAR /\
    length solar = HOURS_PER_YEAR /\ length nuclear = HOURS_PER_YEAR /\
    length hydro = HOURS_PER_YEAR /\
    forall h, (h < HOURS_PER_YEAR)%nat ->
      nuclear !! h = Some 244382.352845001 /\ hydro !! h = Some 76644.0.
Proof.
  intros Hw Hi.
  destruct (analysis_production wind_power irradiation Hw Hi)
    as (total & wind & solar & nuclear & hydro & Hrun & Htl & Hwl & Hsl & Hnl & Hhl & Hval).
  exists total, wind, solar, nuclear, hydro.
  conj_split; try assumption.
  intros h Hh. destruct (Hval h Hh) as (w & i & _ & _ & _ & _ & Hn & Hy & _).
  split; assumption.
Qed.

Lemma calculate_energy_production_shape_witness :
  exists total wind solar nuclear hydro,
    Analysis.calculate_energy_production
      (replicate HOURS_PER_YEAR 3) (replicate HOURS_PER_YEAR 1)
      = Some (total, wind, solar, nuclear, hydro) /\
    length total = HOURS_PER_YEAR /\ length wind = HOURS_PER_YEAR /\
    length solar = HOURS_PER_YEAR /\ length nuclear = HOURS_PER_YEAR /\
    length hydro = HOURS_PER_YEAR /\
    forall h, (h < HOURS_PER_YEAR)%nat ->
      nuclear !! h = Some 244382.352845001 /\ hydro !! h = Some 76644.0.
Proof.
  apply (calculate_energy_production_shape
           (replicate HOURS_PER_YEAR 3) (replicate HOURS_PER_YEAR 1));
    rewrite length_replicate; lia.
Defined.

(** X11. [calculate_energy_production] returns a result exactly when each of
    the two curves either covers the year or consists of a single sample
    (which numpy broadcasts); any other length is a shape mismatch. *)
Theorem calculate_energy_production_defined_iff (wind_power irradiation : list Q) :
  is_Some (Analysis.calculate_energy_production wind_power irradiation) <->
  ((HOURS_PER_YEAR <= length wind_power)%nat \/ length wind_power = 1%nat) /\
  ((HOURS_PER_YEAR <= length irradiation)%nat \/ length irradiation = 1%nat).
Proof.
  unfold Analysis.calculate_energy_production.
  pose proof (scaled_curve Analysis.wind_turbines wind_power) as Hwind.
  pose proof (scaled_curve Analysis.solar_panels irradiation) as Hsolar.
  destruct (Np.broadcast Qmult (Np.full HOURS_PER_YEAR Analysis.wind_turbines)
              (take HOURS_PER_YEAR wind_power)) as [wind|]; cbn [mbind option_bind].
  2: { split; [intros [? H]; discriminate | intros [[H|H] _]; lia]. }
  destruct (Np.broadcast Qmult (Np.full HOURS_PER_YEAR Analysis.solar_panels)
              (take HOURS_PER_YEAR irradiation)) as [solar0|]; cbn [mbind option_bind].
  2: { split; [intros [? H]; discriminate | intros [_ [H|H]]; lia]. }
  destruct Hwind as (Hw & Hwl & _). destruct Hsolar as (Hs & Hsl & _).
  assert (Hnl : length Analysis.nuclear_production = HOURS_PER_YEAR)
    by apply length_replicate.
  assert (Hhl : length Analysis.hydro_capacity = HOURS_PER_YEAR)
    by apply length_replicate.
  rewrite broadcast_same_length by (rewrite length_map; lia).
  cbn [mbind option_bind].
  rewrite broadcast_same_length by (rewrite length_zip_with, length_map; lia).
  cbn [mbind option_bind].
  rewrite broadcast_same_length
    by (rewrite !length_zip_with, length_map; lia).
  cbn [mbind option_bind].
  split; [intros _; split; assumption | intros _; eauto].
Qed.

(** ** ANALYSIS BASED.py: the pipeline of [main] *)

Lemma analysis_capacity_positive : 0 < Analysis.storage_capacity.
Proof. vm_compute. reflexivity. Qed.

Lemma main_pipeline (wind_power irradiation hourly_demand : list Q) :
  wind_power <> [] -> irradiation <> [] -> hourly_demand <> [] ->
  exists args,
    Analysis.main (wind_power, irradiation, hourly_demand) = Some args /\
    length (Analysis.plot_wind args) = HOURS_PER_YEAR /\
    length (Analysis.plot_solar args) = HOURS_PER_YEAR /\
    length (Analysis.plot_nuclear args) = HOURS_PER_YEAR /\
    length (Analysis.plot_hydro args) = HOURS_PER_YEAR /\
    length (Analysis.plot_gas args) = HOURS_PER_YEAR /\
    length (Analysis.plot_storage args) = HOURS_PER_YEAR /\
    length (Analysis.plot_demand args) = HOURS_PER_YEAR /\
    forall h, (h < HOURS_PER_YEAR)%nat ->
      exists v b,
        Analysis.plot_storage args !! h = Some v /\
        Analysis.plot_gas args !! h = Some b /\
        0 <= v <= Analysis.storage_capacity /\ 0 <= b.
Proof.
  intros Hw Hi Hd. unfold Analysis.main.
  destruct (ensure_8760 wind_power) as [wp|] eqn:Ew;
    [|apply ensure_8760_none_iff in Ew; contradiction].
  destruct (ensure_8760 irradiation) as [irr|] eqn:Ei;
    [|apply ensure_8760_none_iff in Ei; contradiction].
  destruct (ensure_8760 hourly_demand) as [dem|] eqn:Ed;
    [|apply ensure_8760_none_iff in Ed; contradiction].
  apply ensure_8760_length in Ew, Ei, Ed.
  cbn [mbind option_bind].
  destruct (analysis_production wp irr ltac:(lia) ltac:(lia))
    as (total & wind & solar & nuclear & hydro & Hprod & Htl & Hwl & Hsl & Hnl & Hhl & _).
  rewrite Hprod. cbn [mbind option_bind].
  destruct (analysis_trace Analysis.storage_capacity total dem ltac:(lia) ltac:(lia))
    as (gas & sv & Hrun & Hgl & Hsvl & Htrace).
  unfold Analysis.simulate_energy_balance. rewrite Hrun. cbn [mbind option_bind].
  eexists. split; [reflexivity|].
  cbn [Analysis.plot_wind Analysis.plot_solar Analysis.plot_nuclear Analysis.plot_hydro
       Analysis.plot_gas Analysis.plot_storage Analysis.plot_demand].
  conj_split; try assumption.
  intros h Hh.
  destruct (trace_levels_bounded Analysis.storage_capacity total dem sv HOURS_PER_YEAR
              analysis_capacity_positive) with (h := h) as (v & Hv & Hb); [|exact Hh|].
  { intros k Hk. destruct (Htrace k Hk) as (p & d & Hp & Hd' & Hv & _). eauto. }
  destruct (Htrace h Hh) as (p & d & _ & _ & _ & Hg).
  eexists v, _. conj_split; [exact Hv | exact Hg | apply Hb | apply Hb |].
  apply spec_transition_backup_nonneg.
Qed.

(** X12. Given three non-empty columns, [main] reaches the call to
    [plot_results] without raising, with seven series of exactly 8760 samples
    each; every recorded storage level lies between 0 and the storage
    capacity of the installed infrastructure and every hourly backup is
    non-negative. *)
Theorem main_reaches_plot (wind_power irradiation hourly_demand : list Q) :
  wind_power <> [] -> irradiation <> [] -> hourly_demand <> [] ->
  exists args,
    Analysis.main (wind_power, irradiation, hourly_demand) = Some args /\
    length (Analysis.plot_wind args) = HOURS_PER_YEAR /\
    length (Analysis.plot_solar args) = HOURS_PER_YEAR /\
    length (Analysis.plot_nuclear args) = HOURS_PER_YEAR /\
    length (Analysis.plot_hydro args) = HOURS_PER_YEAR /\
    length (Analysis.plot_gas args) = HOURS_PER_YEAR /\
    length (Analysis.plot_storage args) = HOURS_PER_YEAR /\
    length (Analysis.plot_demand args) = HOURS_PER_YEAR /\
    forall h, (h < HOURS_PER_YEAR)%nat ->
      exists v b,
        Analysis.plot_storage args !! h = Some v /\
        Analysis.plot_gas args !! h = Some b /\
        0 <= v <= Analysis.storage_capacity /\ 0 <= b.
Proof. exact (main_pipeline wind_power irradiation hourly_demand). Qed.

Lemma main_reaches_plot_witness :
  exists args,
    Analysis.main ([3; 1], [2], [5; 4; 6]) = Some args /\
    length (Analysis.plot_wind args) = HOURS_PER_YEAR /\
    length (Analysis.plot_solar args) = HOURS_PER_YEAR /\
    length (Analysis.plot_nuclear args) = HOURS_PER_YEAR /\
    length (Analysis.plot_hydro args) = HOURS_PER_YEAR /\
    length (Analysis.plot_gas args) = HOURS_PER_YEAR /\
    length (Analysis.plot_storage args) = HOURS_PER_YEAR /\
    length (Analysis.plot_demand args) = HOURS_PER_YEAR /\
    forall h, (h < HOURS_PER_YEAR)%nat ->
      exists v b,
        Analysis.plot_storage args !! h = Some v /\
        Analysis.plot_gas args !! h = Some b /\
        0 <= v <= Analysis.storage_capacity /\ 0 <= b.
Proof. apply (main_reaches_plot [3; 1] [2] [5; 4; 6]); discriminate. Defined.

(** X13. [main] raises exactly when one of the three columns is empty. *)
Theorem main_none_iff_empty_column (wind_power irradiation hourly_demand : list Q) :
  Analysis.main (wind_power, irradiation, hourly_demand) = None <->
  wind_power = [] \/ irradiation = [] \/ hourly_demand = [].
Proof.
  split.
  - intros Hnone.
    destruct wind_power as [|w wp]; [auto|].
    destruct irradiation as [|i irr]; [auto|].
    destruct hourly_demand as [|d dem]; [auto|].
    destruct (main_pipeline (w :: wp) (i :: irr) (d :: dem)) as (args & Hmain & _);
      try discriminate.
    congruence.
  - unfold Analysis.main. intros [-> | [-> | ->]].
    + rewrite (proj2 (ensure_8760_none_iff [])) by reflexivity. reflexivity.
    + destruct (ensure_8760 wind_power); [|reflexivity]. cbn [mbind option_bind].
      rewrite (proj2 (ensure_8760_none_iff [])) by reflexivity. reflexivity.
    + destruct (ensure_8760 wind_power); [|reflexivity]. cbn [mbind option_bind].
      destruct (ensure_8760 irradiation); [|reflexivity]. cbn [mbind option_bind].
      rewrite (proj2 (ensure_8760_none_iff [])) by reflexivity. reflexivity.
Qed.

(** ** Search bounds *)

Lemma bounds_values :
  Optimization.bounds = [(0, inject_Z 1356); (0, inject_Z 14691000); (0, inject_Z 35)].
Proof. vm_compute. reflexivity. Qed.

(** X15. The search box is loose: inside it no single resource costs more
    than the whole budget, so the storage capacity never exceeds the budget,
    but the box also contains mixes that cannot be afforded (its upper corner
    is one), which the objective answers with the sentinel. *)
Theorem bounds_single_resource (Nmills Npanels NSMR : Q) :
  Optimization.in_bounds (Nmills, Npanels, NSMR) ->
  Nmills * Optimization.cost_wind <= Optimization.total_investment /\
  Npanels * Optimization.cost_panels <= Optimization.total_investment /\
  NSMR * Optimization.cost_smr <= Optimization.total_investment /\
  Optimization.storage_kwh Nmills Npanels NSMR <= Optimization.total_investment /\
  exists corner,
    Optimization.in_bounds corner /\
    forall env, Optimization.optimization_function env corner = Some 1e30.
Proof.
  unfold Optimization.in_bounds. rewrite bounds_values. intros H.
  inversion H as [|? ? ? ? [L1 U1] H']; subst.
  inversion H' as [|? ? ? ? [L2 U2] H'']; subst.
  inversion H'' as [|? ? ? ? [L3 U3] _]; subst.
  cbn [fst snd] in *.
  unfold Optimization.storage_kwh.
  assert (Ht : Optimization.total_investment == 8814600000) by (vm_compute; reflexivity).
  assert (Hcw : Optimization.cost_wind == 6500000) by (vm_compute; reflexivity).
  assert (Hcp : Optimization.cost_panels == 600) by (vm_compute; reflexivity).
  assert (Hcs : Optimization.cost_smr == 250000000) by (vm_compute; reflexivity).
  rewrite Ht, Hcw, Hcp, Hcs.
  change (inject_Z 1356) with 1356 in U1.
  change (inject_Z 14691000) with 14691000 in U2.
  change (inject_Z 35) with 35 in U3.
  conj_split; try lra.
  exists (1356, 14691000, 35). split.
  - repeat constructor; apply Qle_bool_iff; vm_compute; reflexivity.
  - intros env. unfold Optimization.optimization_function.
    rewrite calc_all_infeasible; [reflexivity|].
    apply Qle_bool_iff. vm_compute. reflexivity.
Qed.

Lemma bounds_single_resource_witness :
  1 * Optimization.cost_wind <= Optimization.total_investment /\
  2 * Optimization.cost_panels <= Optimization.total_investment /\
  3 * Optimization.cost_smr <= Optimization.total_investment /\
  Optimization.storage_kwh 1 2 3 <= Optimization.total_investment /\
  exists corner,
    Optimization.in_bounds corner /\
    forall env, Optimization.optimization_function env corner = Some 1e30.
Proof.
  apply (bounds_single_resource 1 2 3).
  unfold Optimization.in_bounds, Optimization.bounds.
  repeat constructor; apply Qle_bool_iff; vm_compute; reflexivity.
Defined.

(** ** Production seen by [calc_all] *)

(** X16. For a feasible mix, the production series returned by [calc_all]
    has 8760 samples and is, hour by hour, the sum of the four components
    returned by [calc_energy_production], taken in the order wind, solar,
    nuclear, hydro: the nuclear number is added to every hour. *)
Theorem calc_all_total_production
    (ri rd rs rp : list Q) (env : Optimization.series) (Nmills Npanels NSMR : Q) :
  Optimization.load ri rd rs rp = Some env ->
  0 < Optimization.storage_kwh Nmills Npanels NSMR ->
  exists gas sv tp wind solar nuclear hydro,
    Optimization.calc_all env Nmills Npanels NSMR = Some (gas, sv, tp) /\
    Optimization.calc_energy_production env Nmills Npanels NSMR
      = (NdArray wind, NdArray solar, PyNum nuclear, NdArray hydro) /\
    length tp = HOURS_PER_YEAR /\
    forall h, (h < HOURS_PER_YEAR)%nat ->
      exists a b c,
        wind !! h = Some a /\ solar !! h = Some b /\ hydro !! h = Some c /\
        tp !! h = Some (a + b + nuclear + c).
Proof.
  intros Hload Hpos. destruct (load_lengths _ _ _ _ _ Hload) as (Hi & _ & Hw & Hd).
  destruct (calc_all_feasible env Nmills Npanels NSMR Hw Hi ltac:(lia) Hpos)
    as (gas & sv & tp & bs & Hrun & _ & Htl & _ & _ & Hlookup & _).
  unfold Optimization.calc_energy_production.
  eexists gas, sv, tp, _, _, _, _.
  conj_split; [exact Hrun | reflexivity | exact Htl |].
  intros h Hh.
  destruct (lookup_lt_is_Some_2 (Optimization.wind_power env) h ltac:(lia)) as [w Hwh].
  destruct (lookup_lt_is_Some_2 (Optimization.irradiation env) h ltac:(lia)) as [i Hih].
  eexists _, _, _.
  rewrite !map_lookup, Hwh, Hih. unfold Np.full. rewrite lookup_replicate_2 by exact Hh.
  conj_split; [reflexivity | reflexivity | reflexivity |].
  apply (Hlookup h w i Hwh Hih).
Qed.

Lemma calc_all_total_production_witness :
  exists env gas sv tp wind solar nuclear hydro,
    Optimization.load [1] [2] [3] [4] = Some env /\
    Optimization.calc_all env 1 1 1 = Some (gas, sv, tp) /\
    Optimization.calc_energy_production env 1 1 1
      = (NdArray wind, NdArray solar, PyNum nuclear, NdArray hydro) /\
    length tp = HOURS_PER_YEAR /\
    forall h, (h < HOURS_PER_YEAR)%nat ->
      exists a b c,
        wind !! h = Some a /\ solar !! h = Some b /\ hydro !! h = Some c /\
        tp !! h = Some (a + b + nuclear + c).
Proof.
  destruct (calc_all_total_production [1] [2] [3] [4] _ 1 1 1
              (load_singletons 1 2 3 4) ltac:(reflexivity))
    as (gas & sv & tp & wind & solar & nuclear & hydro & H).
  eexists _, gas, sv, tp, wind, solar, nuclear, hydro.
  split; [apply load_singletons | exact H].
Defined.

(** ** No look-ahead *)

(** X17. The dispatch simulator never looks ahead: two runs whose production
    and demand agree up to and including hour [k] record the same storage
    levels and the same backups up to and including hour [k]. *)
Theorem simulate_no_lookahead (cap : Q) (tp1 hd1 tp2 hd2 : list Q) (k : nat) :
  (HOURS_PER_YEAR <= length tp1)%nat -> (HOURS_PER_YEAR <= length hd1)%nat ->
  (HOURS_PER_YEAR <= length tp2)%nat -> (HOURS_PER_YEAR <= length hd2)%nat ->
  (k < HOURS_PER_YEAR)%nat ->
  (forall h, (h <= k)%nat -> tp1 !! h = tp2 !! h /\ hd1 !! h = hd2 !! h) ->
  exists gas1 sv1 gas2 sv2,
    Analysis.simulate_with_capacity cap tp1 hd1 = Some (gas1, sv1) /\
    Analysis.simulate_with_capacity cap tp2 hd2 = Some (gas2, sv2) /\
    forall h, (h <= k)%nat -> sv1 !! h = sv2 !! h /\ gas1 !! h = gas2 !! h.
Proof.
  intros Ht1 Hd1 Ht2 Hd2 Hk Hsame.
  destruct (analysis_trace cap tp1 hd1 Ht1 Hd1) as (gas1 & sv1 & Hrun1 & _ & _ & Htr1).
  destruct (analysis_trace cap tp2 hd2 Ht2 Hd2) as (gas2 & sv2 & Hrun2 & _ & _ & Htr2).
  exists gas1, sv1, gas2, sv2. conj_split; [exact Hrun1 | exact Hrun2 |].
  assert (Hlev : forall h, (h <= k)%nat -> sv1 !! h = sv2 !! h).
  { intros h. induction h as [|h IH]; intros Hh.
    - destruct (Htr1 O ltac:(lia)) as (p & d & Hp & Hd & Hv & _).
      destruct (Htr2 O ltac:(lia)) as (p' & d' & Hp' & Hd' & Hv' & _).
      destruct (Hsame O Hh) as [Etp Ehd].
      rewrite Hv, Hv'. cbn [level_before]. congruence.
    - destruct (Htr1 (S h) ltac:(lia)) as (p & d & Hp & Hd & Hv & _).
      destruct (Htr2 (S h) ltac:(lia)) as (p' & d' & Hp' & Hd' & Hv' & _).
      destruct (Hsame (S h) Hh) as [Etp Ehd].
      rewrite Hv, Hv'. cbn [level_before]. rewrite (IH ltac:(lia)). congruence. }
  intros h Hh. split; [apply Hlev; exact Hh|].
  destruct (Htr1 h ltac:(lia)) as (p & d & Hp & Hd & _ & Hb).
  destruct (Htr2 h ltac:(lia)) as (p' & d' & Hp' & Hd' & _ & Hb').
  destruct (Hsame h Hh) as [Etp Ehd].
  rewrite Hb, Hb'.
  assert (Hl : level_before (cap * 0.5) sv1 h = level_before (cap * 0.5) sv2 h).
  { destruct h as [|h]; [reflexivity|]. cbn [level_before].
    rewrite (Hlev h ltac:(lia)). reflexivity. }
  rewrite Hl. congruence.
Qed.

Lemma simulate_no_lookahead_witness :
  exists gas1 sv1 gas2 sv2,
    Analysis.simulate_with_capacity 1000
      (replicate HOURS_PER_YEAR 500) (replicate HOURS_PER_YEAR 900) = Some (gas1, sv1) /\
    Analysis.simulate_with_capacity 1000
      (replicate HOURS_PER_YEAR 500 ++ [7]) (replicate HOURS_PER_YEAR 900 ++ [8])
      = Some (gas2, sv2) /\
    forall h, (h <= 5)%nat -> sv1 !! h = sv2 !! h /\ gas1 !! h = gas2 !! h.
Proof.
  apply (simulate_no_lookahead 1000
           (replicate HOURS_PER_YEAR 500) (replicate HOURS_PER_YEAR 900)
           (replicate HOURS_PER_YEAR 500 ++ [7]) (replicate HOURS_PER_YEAR 900 ++ [8]) 5).
  - rewrite length_replicate. lia.
  - rewrite length_replicate. lia.
  - rewrite length_app, length_replicate. lia.
  - rewrite length_app, length_replicate. lia.
  - unfold HOURS_PER_YEAR. lia.
  - intros h Hh. assert (h < HOURS_PER_YEAR)%nat by (unfold HOURS_PER_YEAR; lia).
    rewrite !lookup_app_l by (rewrite length_replicate; lia). split; reflexivity.
Defined.
